(** * Charades dataset loader: annotation parsing and record assembly

    A shallow embedding of [Charades._generate_examples] and of the
    feature schema of [Charades._info], as written in [charades.py] and
    in [charadesMeddled.py], together with the Python builtins the
    generator calls ([str.split], [len], [int], [os.path.join], list and
    dict subscripting).

    Conventions.
    - A Python [str] is a [string]: the UTF-8 bytes of the text.  The
      separators the code splits on ([;], the space, [/]) are ASCII, so
      splitting bytes and splitting code points agree, and a [str] is
      empty exactly when its byte string is.
    - A Python [int] is a [Z].
    - A raised exception is a value of [exn]; code that may raise returns
      a [result].
    - A generator is the finite trace of what it yields, ended by
      exhaustion or by the exception that escapes it. *)

From Stdlib Require Import ZArith Ascii String List.
From Stdlib Require Import Floats.PrimFloat Numbers.Cyclic.Int63.Uint63.
From stdpp Require Import base tactics option list strings gmap.

Local Open Scope string_scope.
Local Open Scope list_scope.
Local Open Scope Z_scope.

(** ** Exceptions and the error monad *)

(** Which builtin conversion rejected its argument: Python words the
    message of the [ValueError] differently for [int] and for [float]. *)
Inductive conversion := ConvInt | ConvFloat.

(** The exceptions the generator's body can raise.  [KeyError] carries the
    missing key, as Python's does ([KeyError('czzz')]); [ValueError]
    carries the rejected literal, which Python quotes in its message. *)
Inductive exn :=
| KeyError (key : string)
| ValueError (conv : conversion) (literal : string)
| TypeError
| AttributeError
| IndexError.

Inductive result (A : Type) :=
| Ok (a : A)
| Raise (e : exn).
Arguments Ok {A} a.
Arguments Raise {A} e.

Definition bind {A B : Type} (c : result A) (k : A -> result B) : result B :=
  match c with
  | Ok a => k a
  | Raise e => Raise e
  end.

Notation "'let*' x ':=' c 'in' k" := (bind c (fun x => k))
  (at level 10, x name, c at level 100, k at level 200).

(** ** Python builtins on strings *)

Module Py.

(** [s.split(sep)] for a one-character separator: the pieces between
    consecutive occurrences of [sep], empty pieces included. *)
Fixpoint split (sep : ascii) (s : string) : list string :=
  match s with
  | EmptyString => [EmptyString]
  | String c s' =>
      if Ascii.eqb c sep then EmptyString :: split sep s'
      else match split sep s' with
           | [] => [String c EmptyString]
           | piece :: pieces => String c piece :: pieces
           end
  end.

(** [sep.join(pieces)], the inverse of [split]. *)
Fixpoint join (sep : ascii) (pieces : list string) : string :=
  match pieces with
  | [] => EmptyString
  | [piece] => piece
  | piece :: rest => piece +:+ String sep (join sep rest)
  end.

(** [c in s] for a one-character [c]. *)
Fixpoint contains (c : ascii) (s : string) : bool :=
  match s with
  | EmptyString => false
  | String c' s' => orb (Ascii.eqb c' c) (contains c s')
  end.

(** [len(s)]. *)
Definition len (s : string) : Z := Z.of_nat (String.length s).

(** [s.startswith(c)] and [s.endswith(c)] for a one-character [c]. *)
Definition startswith (c : ascii) (s : string) : bool :=
  match s with
  | String c' _ => Ascii.eqb c' c
  | EmptyString => false
  end.

Fixpoint endswith (c : ascii) (s : string) : bool :=
  match s with
  | EmptyString => false
  | String c' EmptyString => Ascii.eqb c' c
  | String _ s' => endswith c s'
  end.

(** [os.path.join(a, b)] of [posixpath]: an absolute [b] replaces [a];
    otherwise [b] is appended, after a separator unless [a] is empty or
    already ends with one. *)
Definition os_path_join (a b : string) : string :=
  if startswith "/" b then b
  else if orb (String.eqb a "") (endswith "/" a) then a +:+ b
  else a +:+ "/" +:+ b.

(** *** [int(s)]

    The base-10 literal grammar of [int] on ASCII text: optional
    whitespace, an optional sign, decimal digits with single underscores
    allowed between digits, optional whitespace.  [None] stands for the
    [ValueError] Python raises.  The interpreter's configurable cap on
    the number of digits of a literal is not modelled.  (On non-ASCII
    text Python also accepts other Unicode decimal digits and spaces;
    those are not modelled, and no statement below depends on how such
    text is treated.) *)

Definition isspace (c : ascii) : bool :=
  let n := nat_of_ascii c in
  orb (andb (9 <=? n)%nat (n <=? 13)%nat) (n =? 32)%nat.

Definition digit_value (c : ascii) : option Z :=
  let n := nat_of_ascii c in
  if andb (48 <=? n)%nat (n <=? 57)%nat then Some (Z.of_nat (n - 48)) else None.

Fixpoint lstrip (s : string) : string :=
  match s with
  | String c s' => if isspace c then lstrip s' else s
  | EmptyString => EmptyString
  end.

(** Whether only whitespace remains. *)
Fixpoint all_space (s : string) : bool :=
  match s with
  | EmptyString => true
  | String c s' => andb (isspace c) (all_space s')
  end.

(** The digits after the first one: [acc] is the value read so far and
    [prev_underscore] tells whether the previous character was [_]. *)
Fixpoint int_digits (s : string) (acc : Z) (prev_underscore : bool) : option Z :=
  match s with
  | EmptyString => if prev_underscore then None else Some acc
  | String c s' =>
      match digit_value c with
      | Some d => int_digits s' (10 * acc + d) false
      | None =>
          if Ascii.eqb c "_" then
            if prev_underscore then None else int_digits s' acc true
          else if prev_underscore then None
          else if all_space s then Some acc else None
      end
  end.

Definition int_unsigned (s : string) : option Z :=
  match s with
  | String c s' =>
      match digit_value c with
      | Some d => int_digits s' d false
      | None => None
      end
  | EmptyString => None
  end.

Definition int (s : string) : option Z :=
  match lstrip s with
  | String "+" s' => int_unsigned s'
  | String "-" s' => Z.opp <$> int_unsigned s'
  | s' => int_unsigned s'
  end.

(** [s.strip()] on ASCII whitespace. *)
Fixpoint rstrip (s : string) : string :=
  match s with
  | EmptyString => EmptyString
  | String c s' => if all_space s then EmptyString else String c (rstrip s')
  end.

Definition strip (s : string) : string := rstrip (lstrip s).

End Py.

(** ** Data model *)

(** A cell of a row produced by [csv.DictReader]: the text of the field,
    or Python's [None] for a column that a short line left unfilled. *)
Abbreviation cell := (option string) (only parsing).

(** A row is the dict the reader yields, keyed by the header's column
    names.  (A line longer than the header also gets an entry under the
    key [None]; the generator never reads it.) *)
Abbreviation row := (gmap string (option string)) (only parsing).

(** The dict yielded for a row, one field per key, in the order the
    source writes them.  [F] is the type of Python floats. *)
Module Example.
Record t (F : Type) : Type := mk {
  video_id : cell;
  video : string;
  subject : cell;
  scene : cell;
  quality : Z;
  relevance : Z;
  verified : cell;
  script : cell;
  objects : list string;
  descriptions : list string;
  labels : list string;
  action_timings : list (list F);
  length : cell
}.
Arguments mk {F}.
Arguments video_id {F}.
Arguments video {F}.
Arguments subject {F}.
Arguments scene {F}.
Arguments quality {F}.
Arguments relevance {F}.
Arguments verified {F}.
Arguments script {F}.
Arguments objects {F}.
Arguments descriptions {F}.
Arguments labels {F}.
Arguments action_timings {F}.
Arguments length {F}.
End Example.

(** A generator run to its end: the values it yields, in order, closed
    by exhaustion ([StopIteration]) or by the exception that escapes. *)
Inductive generator (A : Type) :=
| StopIteration
| Yield (a : A) (rest : generator A)
| Raises (e : exn).
Arguments StopIteration {A}.
Arguments Yield {A} a rest.
Arguments Raises {A} e.

Fixpoint yielded {A : Type} (g : generator A) : list A :=
  match g with
  | Yield a rest => a :: yielded rest
  | StopIteration | Raises _ => []
  end.

Fixpoint outcome {A : Type} (g : generator A) : option exn :=
  match g with
  | Yield _ rest => outcome rest
  | StopIteration => None
  | Raises e => Some e
  end.

(** The feature types [_info] declares. *)
Inductive feature :=
| Value (dtype : string)
| Sequence (item : feature)
| ClassLabel (num_classes : Z) (names : list string).

(** ** Python operations on cells, dicts and lists *)

(** [d[key]] on a dict with [str] keys. *)
Definition getitem {V : Type} (d : gmap string V) (key : string) : result V :=
  match d !! key with
  | Some v => Ok v
  | None => Raise (KeyError key)
  end.

(** [table[key]] on a dict given by its items in insertion order. *)
Fixpoint table_getitem {V : Type} (table : list (string * V)) (key : string) : result V :=
  match table with
  | [] => Raise (KeyError key)
  | (k, v) :: table' => if String.eqb k key then Ok v else table_getitem table' key
  end.

(** [l[i]] on a list, for [i >= 0]. *)
Definition list_getitem {A : Type} (l : list A) (i : nat) : result A :=
  match l !! i with
  | Some x => Ok x
  | None => Raise IndexError
  end.

(** [c + suffix]: concatenation needs a [str] on the left. *)
Definition str_add (c : cell) (suffix : string) : result string :=
  match c with
  | Some s => Ok (s +:+ suffix)
  | None => Raise TypeError
  end.

(** [c.split(sep)]: [None] has no such attribute. *)
Definition str_split (c : cell) (sep : ascii) : result (list string) :=
  match c with
  | Some s => Ok (Py.split sep s)
  | None => Raise AttributeError
  end.

(** [len(c)]: [None] has no length. *)
Definition cell_len (c : cell) : result Z :=
  match c with
  | Some s => Ok (Py.len s)
  | None => Raise TypeError
  end.

(** [int(c)]. *)
Definition cell_int (c : cell) : result Z :=
  match c with
  | Some s =>
      match Py.int s with
      | Some n => Ok n
      | None => Raise (ValueError ConvInt s)
      end
  | None => Raise TypeError
  end.

(** [list(map(f, l))] for a conversion [f] that may raise: the elements
    are converted left to right and the first failure escapes. *)
Fixpoint list_map {A : Type} (conv : conversion) (f : string -> option A)
    (l : list string) : result (list A) :=
  match l with
  | [] => Ok []
  | s :: l' =>
      match f s with
      | Some x => let* xs := list_map conv f l' in Ok (x :: xs)
      | None => Raise (ValueError conv s)
      end
  end.

(** ** [charades.py] *)

Module Charades.

Section Builder.

(** Python's floats and the builtin [float], [None] standing for its
    [ValueError]; and [CHARADES_CLASSES], the dict from class codes to
    class names that the module imports from [classes.py], given by its
    items in insertion order. *)
Context {F : Type}.
Variable float : string -> option F.
Variable CHARADES_CLASSES : list (string * string).

(** The features of the [DatasetInfo] that [_info] returns. *)
Definition _info : list (string * feature) :=
  [ ("video_id", Value "string");
    ("video", Value "string");
    ("subject", Value "string");
    ("scene", Value "string");
    ("quality", Value "int32");
    ("relevance", Value "int32");
    ("verified", Value "string");
    ("script", Value "string");
    ("objects", Sequence (Value "string"));
    ("descriptions", Sequence (Value "string"));
    ("labels",
      Sequence (ClassLabel (Z.of_nat (List.length CHARADES_CLASSES))
                           (map snd CHARADES_CLASSES)));
    ("action_timings", Sequence (Sequence (Value "float32")));
    ("length", Value "float32") ].

(** The inner loop, lines 114-120: [labels] and [action_timings] are the
    two lists the loop appends to. *)
Fixpoint actions_loop (tokens : list string) (labels : list string)
    (action_timings : list (list F)) : result (list string * list (list F)) :=
  match tokens with
  | [] => Ok (labels, action_timings)
  | class_label :: tokens' =>
      if negb (Py.len class_label =? 0) then
        let* code := list_getitem (Py.split " " class_label) 0 in
        let* name := table_getitem CHARADES_CLASSES code in
        let labels := labels ++ [name] in
        let* timings := list_map ConvFloat float (drop 1 (Py.split " " class_label)) in
        let action_timings := action_timings ++ [timings] in
        actions_loop tokens' labels action_timings
      else actions_loop tokens' labels action_timings
  end.

(** [int(row[key]) if len(row[key]) != 0 else -100], lines 127 and 128. *)
Definition int_or_sentinel (row : row) (key : string) : result Z :=
  let* c := getitem row key in
  let* n := cell_len c in
  if negb (n =? 0) then
    let* c' := getitem row key in
    cell_int c'
  else Ok (-100).

(** The body of the outer loop for one [row], lines 111-136: the example
    it yields, or the exception that escapes it. *)
Definition example_of_row (video_folder : string) (row : row) : result (Example.t F) :=
  let* id := getitem row "id" in
  let* file_name := str_add id ".mp4" in
  let path := Py.os_path_join video_folder file_name in
  let* actions := getitem row "actions" in
  let* tokens := str_split actions ";" in
  let* lists := actions_loop tokens [] [] in
  let labels := fst lists in
  let action_timings := snd lists in
  let* video_id := getitem row "id" in
  let* subject := getitem row "subject" in
  let* scene := getitem row "scene" in
  let* quality := int_or_sentinel row "quality" in
  let* relevance := int_or_sentinel row "relevance" in
  let* verified := getitem row "verified" in
  let* script := getitem row "script" in
  let* objects_cell := getitem row "objects" in
  let* objects := str_split objects_cell ";" in
  let* descriptions_cell := getitem row "descriptions" in
  let* descriptions := str_split descriptions_cell ";" in
  let* length := getitem row "length" in
  Ok (Example.mk video_id path subject scene quality relevance verified
        script objects descriptions labels action_timings length).

(** The outer loop, lines 110-138, over the rows the reader still holds. *)
Fixpoint rows_loop (video_folder : string) (reader : list row) (idx : Z)
    : generator (Z * Example.t F) :=
  match reader with
  | [] => StopIteration
  | row :: reader' =>
      match example_of_row video_folder row with
      | Ok example => Yield (idx, example) (rows_loop video_folder reader' (idx + 1))
      | Raise e => Raises e
      end
  end.

(** [_generate_examples]: [reader] is the rows that [csv.DictReader]
    yields for [annotation_file]. *)
Definition _generate_examples (reader : list row) (video_folder : string)
    : generator (Z * Example.t F) :=
  rows_loop video_folder reader 0.

End Builder.

End Charades.

(** ** [charadesMeddled.py]

    The builder of this file replaces the download manager's
    [download_and_extract] by its own [downloadWithProgress] and
    [extractWithProgress]; its [_info] and [_generate_examples] are
    embedded here from its own text. *)

Module CharadesMeddled.

Section Builder.

Context {F : Type}.
Variable float : string -> option F.
Variable CHARADES_CLASSES : list (string * string).

(** The features of the [DatasetInfo] that [_info] returns, lines 125-150. *)
Definition _info : list (string * feature) :=
  [ ("video_id", Value "string");
    ("video", Value "string");
    ("subject", Value "string");
    ("scene", Value "string");
    ("quality", Value "int32");
    ("relevance", Value "int32");
    ("verified", Value "string");
    ("script", Value "string");
    ("objects", Sequence (Value "string"));
    ("descriptions", Sequence (Value "string"));
    ("labels",
      Sequence (ClassLabel (Z.of_nat (List.length CHARADES_CLASSES))
                           (map snd CHARADES_CLASSES)));
    ("action_timings", Sequence (Sequence (Value "float32")));
    ("length", Value "float32") ].

(** The inner loop, lines 216-222. *)
Fixpoint actions_loop (tokens : list string) (labels : list string)
    (action_timings : list (list F)) : result (list string * list (list F)) :=
  match tokens with
  | [] => Ok (labels, action_timings)
  | class_label :: tokens' =>
      if negb (Py.len class_label =? 0) then
        let* code := list_getitem (Py.split " " class_label) 0 in
        let* name := table_getitem CHARADES_CLASSES code in
        let labels := labels ++ [name] in
        let* timings := list_map ConvFloat float (drop 1 (Py.split " " class_label)) in
        let action_timings := action_timings ++ [timings] in
        actions_loop tokens' labels action_timings
      else actions_loop tokens' labels action_timings
  end.

(** The parenthesised conditional of lines 229-231 and 232-234. *)
Definition int_or_sentinel (row : row) (key : string) : result Z :=
  let* c := getitem row key in
  let* n := cell_len c in
  if negb (n =? 0) then
    let* c' := getitem row key in
    cell_int c'
  else Ok (-100).

(** The body of the outer loop for one [row], lines 213-242. *)
Definition example_of_row (video_folder : string) (row : row) : result (Example.t F) :=
  let* id := getitem row "id" in
  let* file_name := str_add id ".mp4" in
  let path := Py.os_path_join video_folder file_name in
  let* actions := getitem row "actions" in
  let* tokens := str_split actions ";" in
  let* lists := actions_loop tokens [] [] in
  let labels := fst lists in
  let action_timings := snd lists in
  let* video_id := getitem row "id" in
  let* subject := getitem row "subject" in
  let* scene := getitem row "scene" in
  let* quality := int_or_sentinel row "quality" in
  let* relevance := int_or_sentinel row "relevance" in
  let* verified := getitem row "verified" in
  let* script := getitem row "script" in
  let* objects_cell := getitem row "objects" in
  let* objects := str_split objects_cell ";" in
  let* descriptions_cell := getitem row "descriptions" in
  let* descriptions := str_split descriptions_cell ";" in
  let* length := getitem row "length" in
  Ok (Example.mk video_id path subject scene quality relevance verified
        script objects descriptions labels action_timings length).

(** The outer loop, lines 212-244. *)
Fixpoint rows_loop (video_folder : string) (reader : list row) (idx : Z)
    : generator (Z * Example.t F) :=
  match reader with
  | [] => StopIteration
  | row :: reader' =>
      match example_of_row video_folder row with
      | Ok example => Yield (idx, example) (rows_loop video_folder reader' (idx + 1))
      | Raise e => Raises e
      end
  end.

Definition _generate_examples (reader : list row) (video_folder : string)
    : generator (Z * Example.t F) :=
  rows_loop video_folder reader 0.

End Builder.

End CharadesMeddled.

(** ** The specification's wording, for comparison with the code *)

Module Spec.

(** The video path as the specification builds it: join the root and the
    id, then append the suffix. *)
Definition videoPath (videoRoot videoId : string) : string :=
  Py.os_path_join videoRoot videoId +:+ ".mp4".

(** The quality and relevance rule as the specification words it: the
    sentinel when the trimmed field is empty, otherwise the integer the
    field denotes, or a failure. *)
Definition quality (field : string) : result Z :=
  if String.eqb (Py.strip field) "" then Ok (-100)
  else match Py.int field with
       | Some n => Ok n
       | None => Raise (ValueError ConvInt field)
       end.

(** [ActionClassTable.resolve] as the specification words it: the
    zero-based position of [code] in the table's enumeration order, or a
    failure when the table has no such code. *)
Fixpoint resolve_from (table : list (string * string)) (code : string) (position : Z)
    : result Z :=
  match table with
  | [] => Raise (KeyError code)
  | (k, _) :: table' =>
      if String.eqb k code then Ok position
      else resolve_from table' code (position + 1)
  end.

Definition resolve (table : list (string * string)) (code : string) : result Z :=
  resolve_from table code 0.

End Spec.

(** ** Concrete instances for running the generator *)

Module Sample.

(** Decimal digits only, read as a natural number. *)
Fixpoint digits (s : string) (acc : Z) : option Z :=
  match s with
  | EmptyString => Some acc
  | String c s' =>
      match Py.digit_value c with
      | Some d => digits s' (10 * acc + d)
      | None => None
      end
  end.

(** Python's [float] on the literals the annotation files use, an integer
    part, a point and a fraction with at most fifteen digits in all:
    numerator and power of ten are then exact binary64 values and their
    quotient is the correctly rounded result.  Other text is rejected. *)
Definition float (s : string) : option PrimFloat.float :=
  match Py.split "." s with
  | [int_part; frac_part] =>
      if andb (andb (0 <? Py.len int_part) (0 <? Py.len frac_part))
              (Py.len int_part + Py.len frac_part <=? 15) then
        match digits (int_part +:+ frac_part) 0 with
        | Some m =>
            Some (PrimFloat.div
                    (PrimFloat.of_uint63 (Uint63.of_Z m))
                    (PrimFloat.of_uint63 (Uint63.of_Z (10 ^ Py.len frac_part))))
        | None => None
        end
      else None
  | _ => None
  end.

(** A table in the shape of [CHARADES_CLASSES], with four entries. *)
Definition classes : list (string * string) :=
  [ ("c000", "Holding some clothes");
    ("c001", "Putting clothes somewhere");
    ("c092", "Watching a laptop");
    ("c147", "Fixing a light") ].

(** A well-formed row: every column present, with the given [id],
    [quality], [objects] and [actions] cells. *)
Definition row_of (id quality objects actions : string) : row :=
  list_to_map
    [ ("id", Some id); ("subject", Some "HR43"); ("scene", Some "Kitchen");
      ("quality", Some quality); ("relevance", Some "7"); ("verified", Some "Yes");
      ("script", Some "A person cooks."); ("objects", Some objects);
      ("descriptions", Some "A person is cooking."); ("actions", Some actions);
      ("length", Some "30.96") ].

(** The row of the video [AO8RW], with an empty quality cell, and the
    example the generator builds from it under [/data/Charades_v1]. *)
Definition row_AO8RW : row :=
  row_of "AO8RW" "" "c090;c148;" "c092 11.0 13.0;c147 0.0 5.0".

Definition example_AO8RW : Example.t PrimFloat.float :=
  Example.mk (Some "AO8RW") "/data/Charades_v1/AO8RW.mp4"
    (Some "HR43") (Some "Kitchen") (-100) 7 (Some "Yes")
    (Some "A person cooks.") ["c090"; "c148"; ""] ["A person is cooking."]
    ["Watching a laptop"; "Fixing a light"]
    [[11.0%float; 13.0%float]; [0.0%float; 5.0%float]]
    (Some "30.96").

(** A row whose only action names a code the table lacks, one whose
    first action has a timing that is no number, and one whose quality
    cell is a single space. *)
Definition row_unknown (id : string) : row := row_of id "6" "" "czzz 1.0 2.0".

Definition row_bad_timing : row := row_of "B7KQ2" "6" "" "c092 soon;czzz 1.0 2.0".


(** A row with no action at all, and its example. *)
Definition row_no_actions : row := row_of "F2ZX6" "5" "" "".

Definition example_no_actions : Example.t PrimFloat.float :=
  Example.mk (Some "F2ZX6") "/data/Charades_v1/F2ZX6.mp4"
    (Some "HR43") (Some "Kitchen") 5 7 (Some "Yes")
    (Some "A person cooks.") [""] ["A person is cooking."]
    [] [] (Some "30.96").

End Sample.

(** The trace that yields the elements of [l] in order and goes on as [g]. *)
Definition yields_then {A : Type} (l : list A) (g : generator A) : generator A :=
  foldr Yield g l.

(** Examples paired with their positions, counted from zero. *)
Definition numbered {A : Type} (l : list A) : list (Z * A) :=
  imap (fun i a => (Z.of_nat i, a)) l.

(** What the inner loop does with one non-empty token [tok]: the first
    piece between spaces resolves to [label] in the class table and the
    remaining pieces all convert, in order, to [timings]. *)
Definition token_parsed {F : Type} (float : string -> option F)
    (CHARADES_CLASSES : list (string * string))
    (tok : string) (label : string) (timings : list F) : Prop :=
  exists code,
    list_getitem (Py.split " " tok) 0 = Ok code /\
    table_getitem CHARADES_CLASSES code = Ok label /\
    list_map ConvFloat float (drop 1 (Py.split " " tok)) = Ok timings.

(** A token names a class code the table lacks. *)
Definition unknown_code (CHARADES_CLASSES : list (string * string))
    (tok : string) (code : string) : Prop :=
  tok <> "" /\
  list_getitem (Py.split " " tok) 0 = Ok code /\
  table_getitem CHARADES_CLASSES code = Raise (KeyError code).

(** ** Downloading and extracting: the world the builders act on

    [charadesMeddled.py] fetches archives over HTTP, writes them to disk
    and unpacks them.  These effects are modelled on an explicit [world]:
    the regular files written through [open], the directories made, the
    lines printed, and the extraction calls issued.  The network and the
    archive formats are oracles: what [requests.get] answers for a URL,
    and which members a zip or tar archive with given bytes lists.
    Unpacking one member may fail, as a further oracle says.  The other
    operations on the local file system ([os.makedirs], [open], [write])
    are taken to succeed; a progress bar is modelled by its counter [n]
    alone. *)

Module IO.

(** The exceptions of this layer; [Builtin] wraps those of the parser. *)
Inductive io_exn :=
| HTTPError (status_code : Z)
| RequestException
| RuntimeError (message : string)
| FileNotFoundError (path : string)
| BadZipFile (path : string)
| ReadError (path : string)
| Builtin (e : exn).

(** One call of [extract] on an open archive. *)
Inductive extraction :=
| ZipExtract (archive member target : string)
| TarExtract (archive member target : string).

Record world := mkWorld {
  files : gmap string string;
  dirs : gset string;
  stdout : list string;
  extracted : list extraction
}.

Inductive io_result (A : Type) :=
| Done (a : A)
| Failed (e : io_exn).
Arguments Done {A} a.
Arguments Failed {A} e.

(** An action returns a value or raises, and leaves a world either way. *)
Definition io (A : Type) : Type := world -> io_result A * world.

Definition ret {A : Type} (a : A) : io A := fun w => (Done a, w).

Definition raise {A : Type} (e : io_exn) : io A := fun w => (Failed e, w).

Definition bind {A B : Type} (c : io A) (k : A -> io B) : io B :=
  fun w =>
    match c w with
    | (Done a, w') => k a w'
    | (Failed e, w') => (Failed e, w')
    end.

(** A computation of the parser's kind, run as an action. *)
Definition lift {A : Type} (c : result A) : io A :=
  match c with
  | Ok a => ret a
  | Raise e => raise (Builtin e)
  end.

(** [print(line)]. *)
Definition print (line : string) : io unit :=
  fun w => (Done tt, mkWorld (files w) (dirs w) (stdout w ++ [line]) (extracted w)).

(** [os.makedirs(path, exist_ok=True)]. *)
Definition makedirs (path : string) : io unit :=
  fun w => (Done tt, mkWorld (files w) ({[path]} ∪ dirs w) (stdout w) (extracted w)).

(** [open(path, "wb")]: the file is created, or emptied if it exists. *)
Definition open_wb (path : string) : io unit :=
  fun w => (Done tt, mkWorld (<[path := ""]> (files w)) (dirs w) (stdout w) (extracted w)).

(** [file.write(data)] on the file opened at [path]. *)
Definition write (path data : string) : io unit :=
  fun w => (Done tt, mkWorld (alter (fun old => old +:+ data) path (files w))
                             (dirs w) (stdout w) (extracted w)).

(** The bytes of the file at [path], for the archive readers. *)
Definition read (path : string) : io string :=
  fun w =>
    match files w !! path with
    | Some bytes => (Done bytes, w)
    | None => (Failed (FileNotFoundError path), w)
    end.

(** [archive.extract(member, target)]: the call is issued, and raises
    [e] when [error] is [Some e]. *)
Definition extract (error : option io_exn) (call : extraction) : io unit :=
  fun w =>
    (match error with
     | Some e => Failed e
     | None => Done tt
     end,
     mkWorld (files w) (dirs w) (stdout w) (extracted w ++ [call])).

End IO.

Notation "'let!' x ':=' c 'in' k" := (IO.bind c (fun x => k))
  (at level 10, x name, c at level 100, k at level 200).

(** What [requests.get(url, stream=True)] returns: the status code, the
    [content-length] header if the server sent one, the chunks that
    [iter_content] yields, and the exception that cuts the stream short,
    if any. *)
Record Response := mkResponse {
  status_code : Z;
  content_length : option string;
  chunks : list string;
  stream_error : option IO.io_exn
}.

(** The names of the two splits. *)
Inductive Split := TRAIN | TEST.

(** A [datasets.SplitGenerator]: its name and the two entries of its
    [gen_kwargs]. *)
Record SplitGenerator := mkSplitGenerator {
  name : Split;
  annotation_file : string;
  video_folder : string
}.

Module PyOs.

(** [s.endswith(suffix)]. *)
Fixpoint endswith (s suffix : string) : bool :=
  if String.eqb s suffix then true
  else match s with
       | EmptyString => false
       | String _ s' => endswith s' suffix
       end.

(** [os.path.basename(p)] of [posixpath]: what follows the last
    separator. *)
Definition basename (p : string) : string :=
  List.last (Py.split "/" p) "".

(** [os.path.join(a, b, c)]: the two-argument join, folded from the left. *)
Definition join3 (a b c : string) : string :=
  Py.os_path_join (Py.os_path_join a b) c.

End PyOs.

Definition _ANNOTATIONS_URL : string :=
  "https://ai2-public-datasets.s3-us-west-2.amazonaws.com/charades/Charades.zip".

Definition _VIDEOS_URL : list (string * string) :=
  [ ("default",
     "https://ai2-public-datasets.s3-us-west-2.amazonaws.com/charades/Charades_v1.zip");
    ("480p",
     "https://ai2-public-datasets.s3-us-west-2.amazonaws.com/charades/Charades_v1_480.zip") ].

(** *** [charades.py]: [_split_generators] *)

Module CharadesSplits.

Section Builder.

(** [dl_manager.download_and_extract], the download manager of the
    [datasets] library: some action on the world that returns a path. *)
Variable download_and_extract : string -> IO.io string.

(** [_split_generators], lines 85-103; [config_name] is
    [self.config.name]. *)
Definition _split_generators (config_name : string) : IO.io (list SplitGenerator) :=
  let! annotations_path := download_and_extract _ANNOTATIONS_URL in
  let! url := IO.lift (table_getitem _VIDEOS_URL config_name) in
  let! videos_path := download_and_extract url in
  let archive := Py.os_path_join videos_path "Charades_v1" in
  IO.ret
    [ mkSplitGenerator TRAIN
        (PyOs.join3 annotations_path "Charades" "Charades_v1_train.csv") archive;
      mkSplitGenerator TEST
        (PyOs.join3 annotations_path "Charades" "Charades_v1_test.csv") archive ].

End Builder.

End CharadesSplits.

(** *** [charadesMeddled.py]: downloading, extracting, [_split_generators] *)

Module CharadesMeddledSplits.

Section Builder.

(** The network: what [requests.get] returns or raises for a URL.  The
    archive formats: the member names of the zip or tar archive with the
    given bytes, [None] when the bytes are no such archive. *)
Variable requests_get : string -> IO.io_result Response.
Variable zip_namelist : string -> option (list string).
Variable tar_getmembers : string -> option (list string).

(** Unpacking: the exception that an [extract] call raises on the
    archive with the given bytes, [None] when the member unpacks. *)
Variable extract_error : string -> IO.extraction -> option IO.io_exn.

(** [response.raise_for_status()]. *)
Definition raise_for_status (response : Response) : IO.io unit :=
  if andb (400 <=? status_code response) (status_code response <? 600)
  then IO.raise (IO.HTTPError (status_code response))
  else IO.ret tt.

(** [int(response.headers.get("content-length", 0))]. *)
Definition total_size (response : Response) : IO.io Z :=
  match content_length response with
  | Some header => IO.lift (cell_int (Some header))
  | None => IO.ret 0
  end.

(** The loop of lines 68-70: [n] is the counter of the progress bar. *)
Fixpoint download_loop (localFilename : string) (data : list string) (n : Z) : IO.io Z :=
  match data with
  | [] => IO.ret n
  | chunk :: data' =>
      let n := n + Py.len chunk in
      let! _ := IO.write localFilename chunk in
      download_loop localFilename data' n
  end.

(** [downloadWithProgress], lines 54-75. *)
Definition downloadWithProgress (url localFilename : string) : IO.io string :=
  let! response := (fun w => (requests_get url, w)) in
  let! _ := raise_for_status response in
  let! totalSize := total_size response in
  let! _ := IO.open_wb localFilename in
  let! n := download_loop localFilename (chunks response) 0 in
  let! _ := match stream_error response with
            | Some e => IO.raise e
            | None => IO.ret tt
            end in
  if andb (negb (totalSize =? 0)) (negb (n =? totalSize))
  then IO.raise (IO.RuntimeError "Could not download file")
  else IO.ret localFilename.

(** The loops of lines 90-92 and 102-104: one [extract] and one step of
    the progress bar per member, until an [extract] raises. *)
Fixpoint extract_loop (error : IO.extraction -> option IO.io_exn)
    (call : string -> IO.extraction) (members : list string) (n : Z) : IO.io Z :=
  match members with
  | [] => IO.ret n
  | member :: members' =>
      let! _ := IO.extract (error (call member)) (call member) in
      extract_loop error call members' (n + 1)
  end.

(** [extractWithProgress], lines 78-110. *)
Definition extractWithProgress (localFilename extractDir : string) : IO.io string :=
  let! _ := IO.print ("Extracting " +:+ localFilename +:+ "...") in
  let! _ :=
    if PyOs.endswith localFilename ".zip" then
      let! bytes := IO.read localFilename in
      match zip_namelist bytes with
      | Some fileList =>
          let! _ := extract_loop (extract_error bytes)
                      (fun file => IO.ZipExtract localFilename file extractDir)
                      fileList 0 in
          IO.ret tt
      | None => IO.raise (IO.BadZipFile localFilename)
      end
    else if orb (PyOs.endswith localFilename ".tar.gz")
              (orb (PyOs.endswith localFilename ".tgz")
                   (PyOs.endswith localFilename ".tar")) then
      let! bytes := IO.read localFilename in
      match tar_getmembers bytes with
      | Some members =>
          let! _ := extract_loop (extract_error bytes)
                      (fun member => IO.TarExtract localFilename member extractDir)
                      members 0 in
          IO.ret tt
      | None => IO.raise (IO.ReadError localFilename)
      end
    else
      IO.print ("Unknown file format for " +:+ localFilename +:+ ", skipping extraction.") in
  let! _ := IO.print ("Extraction complete for " +:+ localFilename +:+ ".") in
  IO.ret extractDir.

(** The local [download_and_extract] of [_split_generators], lines 163-171. *)
Definition download_and_extract (url downloadDir extractDir : string) : IO.io string :=
  let localFilename := Py.os_path_join downloadDir (PyOs.basename url) in
  let! _ := downloadWithProgress url localFilename in
  let! extractedPath := extractWithProgress localFilename extractDir in
  IO.ret extractedPath.

(** [_split_generators], lines 156-205. *)
Definition _split_generators (config_name : string) : IO.io (list SplitGenerator) :=
  let DOWNLOAD_DIR := "./downloads" in
  let EXTRACT_DIR := "./extracted" in
  let! _ := IO.makedirs DOWNLOAD_DIR in
  let! _ := IO.makedirs EXTRACT_DIR in
  let! annotations_path := download_and_extract _ANNOTATIONS_URL DOWNLOAD_DIR EXTRACT_DIR in
  let! url := IO.lift (table_getitem _VIDEOS_URL config_name) in
  let! videos_path := download_and_extract url DOWNLOAD_DIR EXTRACT_DIR in
  let archive := Py.os_path_join videos_path "Charades_v1" in
  IO.ret
    [ mkSplitGenerator TRAIN
        (PyOs.join3 annotations_path "Charades" "Charades_v1_train.csv") archive;
      mkSplitGenerator TEST
        (PyOs.join3 annotations_path "Charades" "Charades_v1_test.csv") archive ].

End Builder.

End CharadesMeddledSplits.

(** The bytes a response streams: its chunks, one after the other. *)
Definition body (response : Response) : string :=
  foldr String.append "" (chunks response).

(** The world after [data] has replaced the content of the file [path]. *)
Definition with_file (path data : string) (w : IO.world) : IO.world :=
  IO.mkWorld (<[path := data]> (IO.files w)) (IO.dirs w) (IO.stdout w) (IO.extracted w).

(** The extraction calls issued out of [calls] and the exception that
    stopped them, if one did: calls are issued in order up to and
    including the first that raises. *)
Fixpoint issued (error : IO.extraction -> option IO.io_exn) (calls : list IO.extraction)
    : list IO.extraction * option IO.io_exn :=
  match calls with
  | [] => ([], None)
  | call :: calls' =>
      match error call with
      | Some e => ([call], Some e)
      | None => (call :: (issued error calls').1, (issued error calls').2)
      end
  end.

(** The world after [lines] were printed and [calls] were issued. *)
Definition with_output (lines : list string) (calls : list IO.extraction)
    (w : IO.world) : IO.world :=
  IO.mkWorld (IO.files w) (IO.dirs w) (IO.stdout w ++ lines) (IO.extracted w ++ calls).

(** A network and two archives to run the builders on. *)
Module SampleWorld.

Definition annotations_response : Response :=
  mkResponse 200 (Some "14") ["PK-anno"; "tations"] None.

Definition videos_response : Response :=
  mkResponse 200 None ["PK-videos"] None.

(** A server that announces twenty bytes and sends six. *)
Definition short_response : Response :=
  mkResponse 200 (Some "20") ["PK-cut"] None.

Definition requests_get (url : string) : IO.io_result Response :=
  if String.eqb url _ANNOTATIONS_URL then IO.Done annotations_response
  else if String.eqb url
            "https://ai2-public-datasets.s3-us-west-2.amazonaws.com/charades/Charades_v1.zip"
  then IO.Done videos_response
  else if String.eqb url "https://example.org/short.zip" then IO.Done short_response
  else IO.Failed IO.RequestException.

Definition zip_namelist (bytes : string) : option (list string) :=
  if String.eqb bytes "PK-annotations"
  then Some ["Charades/Charades_v1_train.csv"; "Charades/Charades_v1_test.csv"]
  else if String.eqb bytes "PK-videos" then Some ["Charades_v1/AO8RW.mp4"]
  else None.

Definition tar_getmembers (bytes : string) : option (list string) := None.

(** Every member unpacks. *)
Definition extract_error (bytes : string) (call : IO.extraction) : option IO.io_exn :=
  None.

(** A world with nothing on disk and nothing printed. *)
Definition empty : IO.world := IO.mkWorld ∅ ∅ [] [].

(** The example of the row of [AO8RW] under [./extracted/Charades_v1]. *)
Definition example_AO8RW : Example.t PrimFloat.float :=
  Example.mk (Some "AO8RW") "./extracted/Charades_v1/AO8RW.mp4"
    (Some "HR43") (Some "Kitchen") (-100) 7 (Some "Yes")
    (Some "A person cooks.") ["c090"; "c148"; ""] ["A person is cooking."]
    ["Watching a laptop"; "Fixing a light"]
    [[11.0%float; 13.0%float]; [0.0%float; 5.0%float]]
    (Some "30.96").

End SampleWorld.

(** The end of an extraction whose archive was opened and listed: the
    outcome and the world, given the [calls] issued. *)
Definition unpacked (localFilename extractDir : string)
    (calls : list IO.extraction * option IO.io_exn) (w : IO.world)
    : IO.io_result string * IO.world :=
  match calls.2 with
  | Some e =>
      (IO.Failed e,
       with_output ["Extracting " +:+ localFilename +:+ "..."] calls.1 w)
  | None =>
      (IO.Done extractDir,
       with_output [ "Extracting " +:+ localFilename +:+ "...";
                     "Extraction complete for " +:+ localFilename +:+ "." ]
         calls.1 w)
  end.

(** A response that a download accepts: no error status, a stream that
    ends by itself, and an announced length that is absent, zero or the
    number of bytes streamed. *)
Definition complete (response : Response) : Prop :=
  andb (400 <=? status_code response) (status_code response <? 600) = false /\
  stream_error response = None /\
  (content_length response = None \/
   exists header total,
     content_length response = Some header /\
     Py.int header = Some total /\
     (total = 0 \/ total = Py.len (body response))).

(** The splits [charadesMeddled.py] returns. *)
Definition meddled_splits : list SplitGenerator :=
  [ mkSplitGenerator TRAIN "./extracted/Charades/Charades_v1_train.csv"
      "./extracted/Charades_v1";
    mkSplitGenerator TEST "./extracted/Charades/Charades_v1_test.csv"
      "./extracted/Charades_v1" ].

(** The columns the body of the loop reads from a row. *)
Definition columns : list string :=
  [ "id"; "actions"; "subject"; "scene"; "quality"; "relevance";
    "verified"; "script"; "objects"; "descriptions"; "length" ].

(** * Properties *)

(** ** The error monad *)

Lemma bind_Ok {A B : Type} (c : result A) (k : A -> result B) (b : B) :
  bind c k = Ok b -> exists a, c = Ok a /\ k a = Ok b.
Proof. destruct c as [a|e]; simpl; [eauto | discriminate]. Qed.

(** ** Strings *)

Lemma append_assoc (s1 s2 s3 : string) : (s1 +:+ s2) +:+ s3 = s1 +:+ (s2 +:+ s3).
Proof.
  induction s1 as [|c s1 IH]; [reflexivity|].
  change (String c ((s1 +:+ s2) +:+ s3) = String c (s1 +:+ (s2 +:+ s3))).
  now rewrite IH.
Qed.

Lemma len_zero (s : string) : (Py.len s =? 0) = true <-> s = "".
Proof.
  unfold Py.len. destruct s; simpl; split; intros H; try reflexivity; discriminate.
Qed.

Lemma len_nonzero (s : string) : negb (Py.len s =? 0) = true <-> s <> "".
Proof.
  rewrite negb_true_iff, <- not_true_iff_false, len_zero. reflexivity.
Qed.

Lemma split_nonempty (sep : ascii) (s : string) : Py.split sep s <> [].
Proof.
  destruct s as [|c s]; simpl; [discriminate|].
  destruct (Ascii.eqb c sep); [discriminate|].
  destruct (Py.split sep s); discriminate.
Qed.

(** Splitting loses nothing: joining the pieces gives the text back. *)
Lemma join_split (sep : ascii) (s : string) : Py.join sep (Py.split sep s) = s.
Proof.
  induction s as [|c s IH]; [reflexivity|].
  cbn [Py.split]. destruct (Ascii.eqb c sep) eqn:Hc.
  - apply Ascii.eqb_eq in Hc as ->.
    pose proof (split_nonempty sep s) as Hne.
    destruct (Py.split sep s) as [|p ps]; [contradiction|].
    cbn [Py.join] in *. now rewrite IH.
  - pose proof (split_nonempty sep s) as Hne.
    destruct (Py.split sep s) as [|p ps]; [contradiction|].
    destruct ps as [|p' ps]; cbn [Py.join] in *; now rewrite <- IH.
Qed.

(** No piece of a split contains the separator. *)
Lemma split_pieces_free (sep : ascii) (s : string) :
  Forall (fun piece => Py.contains sep piece = false) (Py.split sep s).
Proof.
  induction s as [|c s IH]; cbn [Py.split].
  - repeat constructor.
  - destruct (Ascii.eqb c sep) eqn:Hc.
    + constructor; [reflexivity | exact IH].
    + destruct (Py.split sep s) as [|p ps]; [repeat constructor; simpl; now rewrite Hc|].
      inversion IH; subst. constructor; [simpl; now rewrite Hc | assumption].
Qed.

Lemma split_getitem_0 (sep : ascii) (s : string) :
  exists piece, list_getitem (Py.split sep s) 0 = Ok piece.
Proof.
  pose proof (split_nonempty sep s).
  destruct (Py.split sep s) as [|p ps]; [contradiction | now exists p].
Qed.

Lemma startswith_append (c : ascii) (s suffix : string) :
  Py.startswith c suffix = false ->
  Py.startswith c (s +:+ suffix) = Py.startswith c s.
Proof. destruct s; [intros H; exact H | reflexivity]. Qed.

(** Appending the suffix before or after the join gives the same path. *)
Lemma os_path_join_suffix (a b : string) :
  Py.os_path_join a (b +:+ ".mp4") = Py.os_path_join a b +:+ ".mp4".
Proof.
  unfold Py.os_path_join.
  rewrite (startswith_append "/" b ".mp4") by reflexivity.
  destruct (Py.startswith "/" b); [reflexivity|].
  destruct (String.eqb a "" || Py.endswith "/" a)%bool.
  - now rewrite append_assoc.
  - rewrite append_assoc. reflexivity.
Qed.

(** On a root that is not empty and does not end with a separator, and a
    relative id, the join is plain concatenation around one separator. *)
Lemma os_path_join_plain (a b : string) :
  a <> "" -> Py.endswith "/" a = false -> Py.startswith "/" b = false ->
  Py.os_path_join a b = a +:+ "/" +:+ b.
Proof.
  intros Ha He Hb. unfold Py.os_path_join. rewrite Hb, He.
  apply String.eqb_neq in Ha. now rewrite Ha.
Qed.

(** ** [int] on blank text *)






(** ** Dict and table lookups *)

Lemma getitem_Ok {V : Type} (d : gmap string V) (key : string) (v : V) :
  getitem d key = Ok v <-> d !! key = Some v.
Proof.
  unfold getitem. destruct (d !! key); split; intros H; congruence.
Qed.

Lemma getitem_insert_ne {V : Type} (d : gmap string V) (k key : string) (v : V) :
  k <> key -> getitem (<[k := v]> d) key = getitem d key.
Proof. intros Hne. unfold getitem. now rewrite lookup_insert_ne. Qed.

Lemma table_getitem_Raise {V : Type} (table : list (string * V)) (key : string) (e : exn) :
  table_getitem table key = Raise e -> e = KeyError key.
Proof.
  induction table as [|[k v] table IH]; simpl; [congruence|].
  destruct (String.eqb k key); [discriminate | exact IH].
Qed.

(** ** The inner loop of [charades.py] *)

Section InnerLoop.

Context {F : Type}.
Variable float : string -> option F.
Variable CHARADES_CLASSES : list (string * string).

Let actions_loop := Charades.actions_loop float CHARADES_CLASSES.

Lemma actions_loop_empty_token (tokens labels : list string) (timings : list (list F)) :
  actions_loop ("" :: tokens) labels timings = actions_loop tokens labels timings.
Proof. reflexivity. Qed.

Lemma actions_loop_token (tok : string) (tokens labels : list string)
    (timings : list (list F)) :
  tok <> "" ->
  actions_loop (tok :: tokens) labels timings =
    let* code := list_getitem (Py.split " " tok) 0 in
    let* name := table_getitem CHARADES_CLASSES code in
    let* ts := list_map ConvFloat float (drop 1 (Py.split " " tok)) in
    actions_loop tokens (labels ++ [name]) (timings ++ [ts]).
Proof.
  intros Hne%len_nonzero. unfold actions_loop. cbn [Charades.actions_loop].
  now rewrite Hne.
Qed.

(** Empty tokens are skipped: the loop runs as on the non-empty ones. *)
Lemma actions_loop_filter (tokens labels : list string) (timings : list (list F)) :
  actions_loop tokens labels timings =
  actions_loop (filter (fun tok => tok <> "") tokens) labels timings.
Proof.
  revert labels timings.
  induction tokens as [|tok tokens IH]; intros labels timings; [reflexivity|].
  destruct (decide (tok = "")) as [->|Hne].
  - rewrite actions_loop_empty_token, filter_cons_False by (intros H; now apply H).
    apply IH.
  - rewrite filter_cons_True by exact Hne.
    rewrite !actions_loop_token by exact Hne.
    destruct (list_getitem _ 0) as [code|]; [|reflexivity]. cbn [bind].
    destruct (table_getitem _ code) as [name|]; [|reflexivity]. cbn [bind].
    destruct (list_map _ _ _) as [ts|]; [|reflexivity]. cbn [bind].
    apply IH.
Qed.

(** A successful run appends one label and one timing list per
    non-empty token, in token order. *)
Lemma actions_loop_Ok (tokens labels : list string) (timings : list (list F))
    (lists : list string * list (list F)) :
  actions_loop tokens labels timings = Ok lists ->
  exists ls ts,
    lists = (labels ++ ls, timings ++ ts) /\
    Forall3 (token_parsed float CHARADES_CLASSES)
            (filter (fun tok => tok <> "") tokens) ls ts.
Proof.
  revert labels timings.
  induction tokens as [|tok tokens IH]; intros labels timings H.
  - exists [], []. rewrite !app_nil_r. split; [now inversion H | constructor].
  - destruct (decide (tok = "")) as [->|Hne].
    + rewrite actions_loop_empty_token in H.
      rewrite filter_cons_False by (intros H'; now apply H'). now apply IH.
    + rewrite actions_loop_token in H by exact Hne.
      apply bind_Ok in H as (code & Hcode & H).
      apply bind_Ok in H as (name & Hname & H).
      apply bind_Ok in H as (ts0 & Hts & H).
      apply IH in H as (ls & ts & -> & Hall).
      exists (name :: ls), (ts0 :: ts). rewrite <- !app_assoc. split; [reflexivity|].
      rewrite filter_cons_True by exact Hne.
      constructor; [now exists code | exact Hall].
Qed.

(** Conversely, tokens that all parse make the loop succeed. *)
Lemma actions_loop_complete (tokens labels ls : list string) (timings ts : list (list F)) :
  Forall3 (token_parsed float CHARADES_CLASSES)
          (filter (fun tok => tok <> "") tokens) ls ts ->
  actions_loop tokens labels timings = Ok (labels ++ ls, timings ++ ts).
Proof.
  revert labels timings ls ts.
  induction tokens as [|tok tokens IH]; intros labels timings ls ts H.
  - inversion H; subst. now rewrite !app_nil_r.
  - destruct (decide (tok = "")) as [->|Hne].
    + rewrite filter_cons_False in H by (intros H'; now apply H').
      rewrite actions_loop_empty_token. now apply IH.
    + rewrite filter_cons_True in H by exact Hne.
      inversion H as [|? l0 t0 ? ls' ts' (code & Hcode & Hname & Hts) Hrest]; subst.
      rewrite actions_loop_token by exact Hne.
      rewrite Hcode; cbn [bind]. rewrite Hname; cbn [bind]. rewrite Hts; cbn [bind].
      rewrite (IH _ _ _ _ Hrest), <- !app_assoc. reflexivity.
Qed.

(** The loop over a concatenation: the second part starts from the lists
    the first part leaves, if the first part finishes at all. *)
Lemma actions_loop_app (tokens1 tokens2 labels : list string) (timings : list (list F)) :
  actions_loop (tokens1 ++ tokens2) labels timings =
    let* lists := actions_loop tokens1 labels timings in
    actions_loop tokens2 (fst lists) (snd lists).
Proof.
  revert labels timings.
  induction tokens1 as [|tok tokens1 IH]; intros labels timings; [reflexivity|].
  rewrite <- app_comm_cons.
  destruct (decide (tok = "")) as [->|Hne].
  - rewrite !actions_loop_empty_token. apply IH.
  - rewrite !actions_loop_token by exact Hne.
    destruct (list_getitem _ 0) as [code|]; [|reflexivity]. cbn [bind].
    destruct (table_getitem _ code) as [name|]; [|reflexivity]. cbn [bind].
    destruct (list_map _ _ _) as [ts|]; [|reflexivity]. cbn [bind].
    apply IH.
Qed.

(** A token with an unknown class code stops the loop there with the
    [KeyError] of that code. *)
Lemma actions_loop_unknown_here (tok code : string) (tokens labels : list string)
    (timings : list (list F)) :
  unknown_code CHARADES_CLASSES tok code ->
  actions_loop (tok :: tokens) labels timings = Raise (KeyError code).
Proof.
  intros (Hne & Hcode & Hname).
  rewrite actions_loop_token by exact Hne.
  rewrite Hcode; cbn [bind]. now rewrite Hname.
Qed.

(** Wherever such a token stands, the loop does not finish. *)
Lemma actions_loop_unknown (tok code : string) (tokens labels : list string)
    (timings : list (list F)) :
  tok ∈ tokens -> unknown_code CHARADES_CLASSES tok code ->
  exists e, actions_loop tokens labels timings = Raise e.
Proof.
  intros Hin Hunk. revert labels timings.
  induction tokens as [|tok' tokens IH]; intros labels timings.
  - now apply elem_of_nil in Hin.
  - apply elem_of_cons in Hin as [<-|Hin].
    + exists (KeyError code). apply actions_loop_unknown_here, Hunk.
    + destruct (decide (tok' = "")) as [->|Hne].
      * rewrite actions_loop_empty_token. now apply IH.
      * rewrite actions_loop_token by exact Hne.
        destruct (list_getitem _ 0) as [c|e]; [|now exists e]. cbn [bind].
        destruct (table_getitem _ c) as [name|e]; [|now exists e]. cbn [bind].
        destruct (list_map _ _ _) as [ts|e]; [|now exists e]. cbn [bind].
        now apply IH.
Qed.

End InnerLoop.

(** ** One row of [charades.py] *)

Section OneRow.

Context {F : Type}.
Variable float : string -> option F.
Variable CHARADES_CLASSES : list (string * string).

Let actions_loop := Charades.actions_loop float CHARADES_CLASSES.
Let example_of_row := Charades.example_of_row float CHARADES_CLASSES.

(** Run one successful step of a monadic computation in the goal. *)
Ltac step H := rewrite H; cbn [bind].

(** The conditional on a present cell: the sentinel for the empty text,
    [int] of the text otherwise. *)
Lemma int_or_sentinel_cell (row : row) (key field : string) :
  row !! key = Some (Some field) ->
  Charades.int_or_sentinel row key =
    if decide (field = "") then Ok (-100) else cell_int (Some field).
Proof.
  intros Hrow%getitem_Ok. unfold Charades.int_or_sentinel.
  step Hrow. cbn [cell_len bind].
  destruct (decide (field = "")) as [->|Hne]; [reflexivity|].
  apply len_nonzero in Hne. now rewrite Hne.
Qed.


(** What a yielded example says about its row: every step of the body
    succeeded, and the example is built from the values they produced. *)
Lemma example_of_row_Ok (video_folder : string) (row : row) (ex : Example.t F) :
  example_of_row video_folder row = Ok ex ->
  exists id actions lists quality relevance objects descriptions,
    row !! "id" = Some (Some id) /\
    row !! "actions" = Some (Some actions) /\
    actions_loop (Py.split ";" actions) [] [] = Ok lists /\
    Charades.int_or_sentinel row "quality" = Ok quality /\
    Charades.int_or_sentinel row "relevance" = Ok relevance /\
    row !! "objects" = Some (Some objects) /\
    row !! "descriptions" = Some (Some descriptions) /\
    row !! "subject" = Some (Example.subject ex) /\
    row !! "scene" = Some (Example.scene ex) /\
    row !! "verified" = Some (Example.verified ex) /\
    row !! "script" = Some (Example.script ex) /\
    row !! "length" = Some (Example.length ex) /\
    ex = Example.mk (Some id)
           (Py.os_path_join video_folder (id +:+ ".mp4"))
           (Example.subject ex) (Example.scene ex) quality relevance
           (Example.verified ex) (Example.script ex)
           (Py.split ";" objects) (Py.split ";" descriptions)
           (fst lists) (snd lists) (Example.length ex).
Proof.
  intros H. unfold example_of_row, Charades.example_of_row in H.
  apply bind_Ok in H as (id & Hid%getitem_Ok & H).
  apply bind_Ok in H as (name & Hname & H).
  destruct id as [id|]; [|discriminate]. injection Hname as <-.
  apply bind_Ok in H as (actions & Hactions%getitem_Ok & H).
  apply bind_Ok in H as (tokens & Htokens & H).
  destruct actions as [actions|]; [|discriminate]. injection Htokens as <-.
  apply bind_Ok in H as (lists & Hlists & H).
  apply bind_Ok in H as (video_id & Hvid%getitem_Ok & H).
  apply bind_Ok in H as (subject & Hsubject%getitem_Ok & H).
  apply bind_Ok in H as (scene & Hscene%getitem_Ok & H).
  apply bind_Ok in H as (quality & Hquality & H).
  apply bind_Ok in H as (relevance & Hrelevance & H).
  apply bind_Ok in H as (verified & Hverified%getitem_Ok & H).
  apply bind_Ok in H as (script & Hscript%getitem_Ok & H).
  apply bind_Ok in H as (oc & Hoc%getitem_Ok & H).
  apply bind_Ok in H as (objects & Hobjects & H).
  destruct oc as [o|]; [|discriminate]. injection Hobjects as <-.
  apply bind_Ok in H as (dc & Hdc%getitem_Ok & H).
  apply bind_Ok in H as (descriptions & Hdescriptions & H).
  destruct dc as [d|]; [|discriminate]. injection Hdescriptions as <-.
  apply bind_Ok in H as (len & Hlen%getitem_Ok & H).
  injection H as <-. cbn.
  assert (video_id = Some id) as -> by congruence.
  exists id, actions, lists, quality, relevance, o, d.
  repeat split; assumption.
Qed.

(** The body up to the inner loop: when the loop raises, so does the row. *)
Lemma example_of_row_actions_Raise (video_folder : string) (row : row)
    (id actions : string) (e : exn) :
  row !! "id" = Some (Some id) ->
  row !! "actions" = Some (Some actions) ->
  actions_loop (Py.split ";" actions) [] [] = Raise e ->
  example_of_row video_folder row = Raise e.
Proof.
  intros Hid%getitem_Ok Hactions%getitem_Ok Hloop.
  unfold example_of_row, Charades.example_of_row.
  step Hid. cbn [str_add bind]. step Hactions. cbn [str_split bind].
  fold actions_loop. now rewrite Hloop.
Qed.

(** A row that stops before or in the inner loop raises whatever the
    cells of its other columns hold. *)
Lemma example_of_row_actions_fail (video_folder : string) (row : row)
    (actions : string) :
  row !! "actions" = Some (Some actions) ->
  (exists e, actions_loop (Py.split ";" actions) [] [] = Raise e) ->
  exists e, example_of_row video_folder row = Raise e.
Proof.
  intros Hactions [e Hloop].
  destruct (row !! "id") as [[id|]|] eqn:Hid.
  - exists e. now apply (example_of_row_actions_Raise video_folder row id actions).
  - unfold example_of_row, Charades.example_of_row, getitem. rewrite Hid. now eexists.
  - unfold example_of_row, Charades.example_of_row, getitem. rewrite Hid. now eexists.
Qed.

Lemma int_or_sentinel_insert_ne (row : row) (k key : string) (c : cell) :
  k <> key ->
  Charades.int_or_sentinel (<[k := c]> row) key = Charades.int_or_sentinel row key.
Proof.
  intros Hne. unfold Charades.int_or_sentinel.
  now rewrite !getitem_insert_ne by exact Hne.
Qed.



End OneRow.

(** ** The outer loop of [charades.py] *)

Section OuterLoop.

Context {F : Type}.
Variable float : string -> option F.
Variable CHARADES_CLASSES : list (string * string).
Variable video_folder : string.

Let example_of_row := Charades.example_of_row float CHARADES_CLASSES video_folder.
Let rows_loop := Charades.rows_loop float CHARADES_CLASSES video_folder.

Lemma yielded_yields_then {A : Type} (l : list A) (g : generator A) :
  yielded (yields_then l g) = l ++ yielded g.
Proof. induction l as [|a l IH]; simpl; [reflexivity | now rewrite IH]. Qed.

Lemma outcome_yields_then {A : Type} (l : list A) (g : generator A) :
  outcome (yields_then l g) = outcome g.
Proof. induction l as [|a l IH]; simpl; [reflexivity | exact IH]. Qed.

(** Rows that all parse are yielded one by one, numbered upwards from
    the index the loop holds, and the loop goes on after them with the
    index advanced by their number. *)
Lemma rows_loop_app (before rest : list row) (exs : list (Example.t F)) (idx : Z) :
  Forall2 (fun row ex => example_of_row row = Ok ex) before exs ->
  rows_loop (before ++ rest) idx =
    yields_then (imap (fun i ex => (idx + Z.of_nat i, ex)) exs)
                (rows_loop rest (idx + Z.of_nat (List.length before))).
Proof.
  intros Hall. revert idx.
  induction Hall as [|row ex before exs Hrow Hall IH]; intros idx.
  - cbn. now rewrite Z.add_0_r.
  - cbn [app]. unfold rows_loop. cbn [Charades.rows_loop].
    fold example_of_row. rewrite Hrow. fold rows_loop.
    rewrite IH, imap_cons. cbn [yields_then foldr]. rewrite Z.add_0_r.
    replace (idx + Z.of_nat (List.length (row :: before)))
      with (idx + 1 + Z.of_nat (List.length before)) by (cbn [List.length]; lia).
    unfold yields_then. f_equal. f_equal.
    apply imap_ext. intros i x _. cbn. f_equal. lia.
Qed.

(** A property of every example the body can return holds of every
    example the loop yields. *)
Lemma rows_loop_yielded (P : Example.t F -> Prop) (reader : list row) (idx : Z) :
  (forall row ex, example_of_row row = Ok ex -> P ex) ->
  Forall (fun p => P (snd p)) (yielded (rows_loop reader idx)).
Proof.
  intros HP. revert idx.
  induction reader as [|row reader IH]; intros idx; [constructor|].
  unfold rows_loop. cbn [Charades.rows_loop]. fold example_of_row.
  destruct (example_of_row row) as [ex|e] eqn:Hrow; [|constructor].
  cbn [yielded]. constructor; [now apply (HP row) | apply IH].
Qed.

(** The [i]-th pair yielded carries the index the loop started from
    plus [i]. *)
Lemma rows_loop_indices (reader : list row) (idx : Z) :
  map fst (yielded (rows_loop reader idx)) =
  imap (fun i _ => idx + Z.of_nat i) (yielded (rows_loop reader idx)).
Proof.
  revert idx.
  induction reader as [|row reader IH]; intros idx; [reflexivity|].
  unfold rows_loop. cbn [Charades.rows_loop]. fold example_of_row.
  destruct (example_of_row row) as [ex|e]; [|reflexivity].
  fold rows_loop. cbn [yielded map fst]. rewrite imap_cons, IH, Z.add_0_r.
  f_equal. apply imap_ext. intros i x _. cbn. lia.
Qed.

(** A row that raises ends the run: an exception escapes, and nothing is
    yielded for that row or for the rows after it. *)
Lemma rows_loop_abort (before after : list row) (row : row) (idx : Z) :
  (exists e, example_of_row row = Raise e) ->
  exists e,
    outcome (rows_loop (before ++ row :: after) idx) = Some e /\
    (List.length (yielded (rows_loop (before ++ row :: after) idx))
       <= List.length before)%nat.
Proof.
  intros [e Hrow]. revert idx.
  induction before as [|row' before IH]; intros idx.
  - exists e. unfold rows_loop. cbn [app Charades.rows_loop].
    fold example_of_row. rewrite Hrow. split; [reflexivity | cbn; lia].
  - unfold rows_loop. cbn [app Charades.rows_loop]. fold example_of_row.
    destruct (example_of_row row') as [ex|e'].
    + fold rows_loop. destruct (IH (idx + 1)) as (e'' & Hout & Hlen).
      exists e''. cbn [outcome yielded List.length]. split; [exact Hout | lia].
    + exists e'. split; [reflexivity | cbn; lia].
Qed.

End OuterLoop.

(** ** The two files *)

(** The loops and the schema of [charadesMeddled.py] are those of
    [charades.py]. *)
Lemma meddled_example_of_row {F : Type} (float : string -> option F)
    (CHARADES_CLASSES : list (string * string)) (video_folder : string) (row : row) :
  CharadesMeddled.example_of_row float CHARADES_CLASSES video_folder row =
  Charades.example_of_row float CHARADES_CLASSES video_folder row.
Proof. reflexivity. Qed.

Lemma meddled_rows_loop {F : Type} (float : string -> option F)
    (CHARADES_CLASSES : list (string * string)) (video_folder : string)
    (reader : list row) (idx : Z) :
  CharadesMeddled.rows_loop float CHARADES_CLASSES video_folder reader idx =
  Charades.rows_loop float CHARADES_CLASSES video_folder reader idx.
Proof.
  revert idx. induction reader as [|row reader IH]; intros idx; [reflexivity|].
  cbn [CharadesMeddled.rows_loop Charades.rows_loop].
  rewrite meddled_example_of_row.
  destruct (Charades.example_of_row _ _ _ row); [now rewrite IH | reflexivity].
Qed.

Lemma meddled_generate_examples {F : Type} (float : string -> option F)
    (CHARADES_CLASSES : list (string * string)) (reader : list row)
    (video_folder : string) :
  CharadesMeddled._generate_examples float CHARADES_CLASSES reader video_folder =
  Charades._generate_examples float CHARADES_CLASSES reader video_folder.
Proof. apply meddled_rows_loop. Qed.

(** ** Conversions of lists *)

Lemma list_map_cons_Ok {A : Type} (conv : conversion) (f : string -> option A)
    (s : string) (l : list string) (xs : list A) :
  list_map conv f (s :: l) = Ok xs ->
  exists x xs', f s = Some x /\ list_map conv f l = Ok xs' /\ xs = x :: xs'.
Proof.
  cbn [list_map]. destruct (f s) as [x|]; [|discriminate].
  intros (xs' & Hxs' & [= <-])%bind_Ok. now exists x, xs'.
Qed.

Lemma list_map_nil_Ok {A : Type} (conv : conversion) (f : string -> option A)
    (xs : list A) :
  list_map conv f [] = Ok xs -> xs = [].
Proof. now intros [= <-]. Qed.

(** ** The code's conditional and the specification's rule *)



(** ** Runs of the generator *)

Section Runs.

Context {F : Type}.
Variable float : string -> option F.
Variable CHARADES_CLASSES : list (string * string).
Variable video_folder : string.

Let example_of_row := Charades.example_of_row float CHARADES_CLASSES video_folder.
Let generate := fun reader =>
  Charades._generate_examples float CHARADES_CLASSES reader video_folder.

(** Rows that all parse, then the rest of the file. *)
Lemma generate_app (before rest : list row) (exs : list (Example.t F)) :
  Forall2 (fun row ex => example_of_row row = Ok ex) before exs ->
  generate (before ++ rest) =
    yields_then (numbered exs)
      (Charades.rows_loop float CHARADES_CLASSES video_folder rest
         (Z.of_nat (List.length before))).
Proof.
  intros Hall. unfold generate, Charades._generate_examples.
  now rewrite (rows_loop_app float CHARADES_CLASSES video_folder before rest exs 0 Hall).
Qed.

Lemma generate_all (reader : list row) (exs : list (Example.t F)) :
  Forall2 (fun row ex => example_of_row row = Ok ex) reader exs ->
  generate reader = yields_then (numbered exs) StopIteration.
Proof.
  intros Hall. rewrite <- (app_nil_r reader). now rewrite (generate_app _ [] exs Hall).
Qed.

Lemma generate_raise (before after : list row) (row : row)
    (exs : list (Example.t F)) (e : exn) :
  Forall2 (fun row ex => example_of_row row = Ok ex) before exs ->
  example_of_row row = Raise e ->
  generate (before ++ row :: after) = yields_then (numbered exs) (Raises e).
Proof.
  intros Hall Hrow. rewrite (generate_app _ _ exs Hall).
  cbn [Charades.rows_loop]. fold example_of_row. now rewrite Hrow.
Qed.

End Runs.

(** The positions [numbered] attaches are 0, 1, 2, ... *)
Lemma imap_indices {A : Type} (k : nat) (l : list A) :
  map fst (imap (fun i a => (Z.of_nat (k + i), a)) l)
  = map Z.of_nat (seq k (List.length l)).
Proof.
  revert k. induction l as [|a l IH]; intros k; [reflexivity|].
  cbn [imap map fst List.length seq]. rewrite Nat.add_0_r. f_equal.
  rewrite <- IH. f_equal. apply imap_ext. intros i x _. cbn. f_equal. lia.
Qed.

Lemma numbered_indices {A : Type} (l : list A) :
  map fst (numbered l) = map Z.of_nat (seq 0 (List.length l)).
Proof. apply (imap_indices 0). Qed.

(** ** Class names and their positions *)

(** The value the table holds for a code is the class name listed at
    the position the specification calls the index of the code. *)
Lemma resolve_from_getitem (table : list (string * string)) (code label : string)
    (position : Z) :
  table_getitem table code = Ok label ->
  exists idx,
    Spec.resolve_from table code position = Ok idx /\
    position <= idx /\
    map snd table !! Z.to_nat (idx - position) = Some label.
Proof.
  revert position. induction table as [|[k v] table IH]; intros position;
    cbn [table_getitem Spec.resolve_from]; [discriminate|].
  destruct (String.eqb k code).
  - intros [= ->]. exists position. rewrite Z.sub_diag. repeat split. lia.
  - intros H. destruct (IH (position + 1) H) as (idx & Hidx & Hle & Hname).
    exists idx. split; [exact Hidx | split; [lia|]].
    replace (Z.to_nat (idx - position)) with (S (Z.to_nat (idx - (position + 1))))
      by lia.
    exact Hname.
Qed.

Lemma resolve_getitem (table : list (string * string)) (code label : string) :
  table_getitem table code = Ok label ->
  exists idx,
    Spec.resolve table code = Ok idx /\
    0 <= idx /\
    map snd table !! Z.to_nat idx = Some label.
Proof.
  intros H. destruct (resolve_from_getitem table code label 0 H)
    as (idx & Hidx & Hle & Hname).
  exists idx. rewrite Z.sub_0_r in Hname. now repeat split.
Qed.

(** * The claims *)

(** C1. Every example that [_generate_examples] yields, in [charades.py]
    and in [charadesMeddled.py], has as many labels as it has timing
    lists: the inner loop appends one of each per resolved token. *)
Theorem C1_labels_timings_aligned {F : Type} (float : string -> option F)
    (CHARADES_CLASSES : list (string * string)) (reader : list row)
    (video_folder : string) :
  Forall (fun p => List.length (Example.labels p.2)
                   = List.length (Example.action_timings p.2))
         (yielded (Charades._generate_examples float CHARADES_CLASSES reader video_folder))
  /\
  Forall (fun p => List.length (Example.labels p.2)
                   = List.length (Example.action_timings p.2))
         (yielded (CharadesMeddled._generate_examples float CHARADES_CLASSES reader video_folder)).
Proof.
  assert (H : Forall (fun p => List.length (Example.labels p.2)
                               = List.length (Example.action_timings p.2))
                (yielded (Charades._generate_examples float CHARADES_CLASSES
                            reader video_folder)));
    [|split; [exact H | now rewrite meddled_generate_examples]].
  apply (rows_loop_yielded float CHARADES_CLASSES video_folder
           (fun ex => List.length (Example.labels ex)
                      = List.length (Example.action_timings ex))).
  intros row ex Hex.
  apply example_of_row_Ok in Hex
    as (id & actions & lists & q & r & o & d & _ & _ & Hloop & _ & _ & _ & _
        & _ & _ & _ & _ & _ & ->).
  apply actions_loop_Ok in Hloop as (ls & ts & -> & Hall).
  cbn. rewrite <- (Forall3_length_lm _ _ _ _ Hall). exact (Forall3_length_lr _ _ _ _ Hall).
Qed.

(** C2, the claim as stated fails.  On [c092 11.0 13.0;c147 0.0 5.0]
    the labels yielded are the class names the table holds for the two
    codes, not the zero-based positions of the codes: with the table
    reversed the positions of [c092] and [c147] change from 2 and 3 to 1
    and 0 while the record yielded stays the same, and with other names
    under the same codes the positions stay 2 and 3 while the labels
    change. *)
Lemma C2_labels_are_names :
  Spec.resolve Sample.classes "c092" = Ok 2 /\
  Spec.resolve Sample.classes "c147" = Ok 3 /\
  Charades.example_of_row Sample.float Sample.classes "/data/Charades_v1"
    Sample.row_AO8RW = Ok Sample.example_AO8RW /\
  Example.labels Sample.example_AO8RW = ["Watching a laptop"; "Fixing a light"] /\
  Spec.resolve (rev Sample.classes) "c092" = Ok 1 /\
  Spec.resolve (rev Sample.classes) "c147" = Ok 0 /\
  Charades.example_of_row Sample.float (rev Sample.classes) "/data/Charades_v1"
    Sample.row_AO8RW = Ok Sample.example_AO8RW /\
  Spec.resolve (map (fun entry => (entry.1, "class " +:+ entry.1)) Sample.classes) "c092"
    = Ok 2 /\
  Spec.resolve (map (fun entry => (entry.1, "class " +:+ entry.1)) Sample.classes) "c147"
    = Ok 3 /\
  exists ex,
    Charades.example_of_row Sample.float
      (map (fun entry => (entry.1, "class " +:+ entry.1)) Sample.classes)
      "/data/Charades_v1" Sample.row_AO8RW = Ok ex /\
    Example.labels ex = ["class c092"; "class c147"].
Proof.
  repeat (split; [vm_compute; reflexivity|]).
  eexists. split; vm_compute; reflexivity.
Qed.

(** C2, amended.  For a row that yields an example, the labels and the
    timing lists are, token by token over the non-empty [;]-separated
    tokens of the actions cell, the value the class table holds for the
    token's first space-separated piece and the [float] of each
    remaining piece in order.  That value is the class name: the name at
    the position of the code among the class names, not the position
    itself.  On [c092 11.0 13.0;c147 0.0 5.0] the labels are the table's
    names for [c092] and [c147] and the timings are the floats of
    [11.0], [13.0] and of [0.0], [5.0]. *)
Theorem C2_token_grammar {F : Type} (float : string -> option F)
    (CHARADES_CLASSES : list (string * string)) (video_folder : string)
    (row : row) (actions : string) (ex : Example.t F) :
  row !! "actions" = Some (Some actions) ->
  Charades.example_of_row float CHARADES_CLASSES video_folder row = Ok ex ->
  Forall3 (token_parsed float CHARADES_CLASSES)
          (filter (fun tok => tok <> "") (Py.split ";" actions))
          (Example.labels ex) (Example.action_timings ex)
  /\
  Forall2 (fun tok label =>
             exists code idx,
               list_getitem (Py.split " " tok) 0 = Ok code /\
               table_getitem CHARADES_CLASSES code = Ok label /\
               Spec.resolve CHARADES_CLASSES code = Ok idx /\
               0 <= idx /\
               map snd CHARADES_CLASSES !! Z.to_nat idx = Some label)
          (filter (fun tok => tok <> "") (Py.split ";" actions))
          (Example.labels ex)
  /\
  (actions = "c092 11.0 13.0;c147 0.0 5.0" ->
   exists name_c092 name_c147 f11 f13 f0 f5,
     table_getitem CHARADES_CLASSES "c092" = Ok name_c092 /\
     table_getitem CHARADES_CLASSES "c147" = Ok name_c147 /\
     float "11.0" = Some f11 /\ float "13.0" = Some f13 /\
     float "0.0" = Some f0 /\ float "5.0" = Some f5 /\
     Example.labels ex = [name_c092; name_c147] /\
     Example.action_timings ex = [[f11; f13]; [f0; f5]]).
Proof.
  intros Hrow Hex.
  apply example_of_row_Ok in Hex
    as (id & actions' & lists & q & r & o & d & _ & Hact & Hloop & _ & _ & _ & _
        & _ & _ & _ & _ & _ & ->).
  assert (actions' = actions) as -> by congruence.
  apply actions_loop_Ok in Hloop as (ls & ts & -> & Hall).
  cbn [Example.labels Example.action_timings fst snd app].
  split; [exact Hall | split].
  - clear Hrow Hact. induction Hall as [|tok label timings toks ls ts Htok _ IH];
      constructor; [|exact IH].
    destruct Htok as (code & Hcode & Hlabel & _).
    destruct (resolve_getitem _ _ _ Hlabel) as (idx & Hidx & Hle & Hname).
    now exists code, idx.
  - intros ->.
    change (filter _ (Py.split ";" "c092 11.0 13.0;c147 0.0 5.0"))
      with ["c092 11.0 13.0"; "c147 0.0 5.0"] in Hall.
    inversion Hall as [|? l1 t1 ? ls1 ts1 (c1 & Hc1 & Hl1 & Ht1) Hall1]; subst.
    inversion Hall1 as [|? l2 t2 ? ls2 ts2 (c2 & Hc2 & Hl2 & Ht2) Hall2]; subst.
    inversion Hall2; subst.
    injection Hc1 as <-. injection Hc2 as <-.
    change (drop 1 (Py.split " " "c092 11.0 13.0")) with ["11.0"; "13.0"] in Ht1.
    change (drop 1 (Py.split " " "c147 0.0 5.0")) with ["0.0"; "5.0"] in Ht2.
    apply list_map_cons_Ok in Ht1 as (f11 & r1 & Hf11 & Ht1 & ->).
    apply list_map_cons_Ok in Ht1 as (f13 & r1' & Hf13 & Ht1 & ->).
    apply list_map_nil_Ok in Ht1 as ->.
    apply list_map_cons_Ok in Ht2 as (f0 & r2 & Hf0 & Ht2 & ->).
    apply list_map_cons_Ok in Ht2 as (f5 & r2' & Hf5 & Ht2 & ->).
    apply list_map_nil_Ok in Ht2 as ->.
    exists l1, l2, f11, f13, f0, f5. repeat split; assumption.
Qed.

Lemma C2_token_grammar_witness :
  Sample.row_AO8RW !! "actions" = Some (Some "c092 11.0 13.0;c147 0.0 5.0") /\
  Charades.example_of_row Sample.float Sample.classes "/data/Charades_v1"
    Sample.row_AO8RW = Ok Sample.example_AO8RW /\
  exists name_c092 name_c147 f11 f13 f0 f5,
    table_getitem Sample.classes "c092" = Ok name_c092 /\
    table_getitem Sample.classes "c147" = Ok name_c147 /\
    Sample.float "11.0" = Some f11 /\ Sample.float "13.0" = Some f13 /\
    Sample.float "0.0" = Some f0 /\ Sample.float "5.0" = Some f5 /\
    Example.labels Sample.example_AO8RW = [name_c092; name_c147] /\
    Example.action_timings Sample.example_AO8RW = [[f11; f13]; [f0; f5]].
Proof.
  split; [reflexivity|]. split; [vm_compute; reflexivity|].
  destruct (C2_token_grammar Sample.float Sample.classes "/data/Charades_v1"
              Sample.row_AO8RW "c092 11.0 13.0;c147 0.0 5.0" Sample.example_AO8RW)
    as (_ & _ & Hexample); [reflexivity | vm_compute; reflexivity |].
  apply Hexample. reflexivity.
Defined.




(** C4, the claim as stated fails.  The exception that escapes is
    Python's bare [KeyError] of the code: the same value escapes from the
    first row of one file and from the second row of another, whose
    failing rows differ, so it identifies neither the row index nor the
    raw row.  And a row with an unknown code does not always fail with
    that [KeyError]: an earlier token whose timing is not a number raises
    its [ValueError] first. *)
Lemma C4_error_lacks_row_context :
  outcome (Charades._generate_examples Sample.float Sample.classes
             [Sample.row_unknown "D1QW8"] "/data/Charades_v1")
    = Some (KeyError "czzz") /\
  outcome (Charades._generate_examples Sample.float Sample.classes
             [Sample.row_AO8RW; Sample.row_unknown "E5TY3"] "/data/Charades_v1")
    = Some (KeyError "czzz") /\
  List.length (yielded (Charades._generate_examples Sample.float Sample.classes
             [Sample.row_unknown "D1QW8"] "/data/Charades_v1")) = 0%nat /\
  List.length (yielded (Charades._generate_examples Sample.float Sample.classes
             [Sample.row_AO8RW; Sample.row_unknown "E5TY3"] "/data/Charades_v1")) = 1%nat /\
  Sample.row_unknown "D1QW8" !! "id" <> Sample.row_unknown "E5TY3" !! "id" /\
  unknown_code Sample.classes "czzz 1.0 2.0" "czzz" /\
  "czzz 1.0 2.0" ∈ Py.split ";" "c092 soon;czzz 1.0 2.0" /\
  Sample.row_bad_timing !! "actions" = Some (Some "c092 soon;czzz 1.0 2.0") /\
  Charades.example_of_row Sample.float Sample.classes "/data/Charades_v1"
    Sample.row_bad_timing = Raise (ValueError ConvFloat "soon").
Proof.
  repeat split; try (vm_compute; reflexivity); try discriminate.
  change (Py.split ";" "c092 soon;czzz 1.0 2.0") with ["c092 soon"; "czzz 1.0 2.0"].
  apply list_elem_of_further, list_elem_of_here.
Qed.

(** C4, amended.  A row whose actions cell has a token naming a class
    code absent from the table yields no record: the body raises, the
    generator ends there with an exception, and neither that row nor any
    later one is yielded.  When the row's id is present and the tokens
    before the first such token parse, the exception is the [KeyError]
    of the unknown code, raised after the records of the rows before it;
    it carries the code and nothing else. *)
Theorem C4_unknown_code_aborts {F : Type} (float : string -> option F)
    (CHARADES_CLASSES : list (string * string)) (video_folder : string)
    (row : row) (actions tok code : string) :
  row !! "actions" = Some (Some actions) ->
  tok ∈ Py.split ";" actions ->
  unknown_code CHARADES_CLASSES tok code ->
  (exists e,
     Charades.example_of_row float CHARADES_CLASSES video_folder row = Raise e)
  /\
  (forall before after,
     exists e,
       outcome (Charades._generate_examples float CHARADES_CLASSES
                  (before ++ row :: after) video_folder) = Some e /\
       (List.length (yielded (Charades._generate_examples float CHARADES_CLASSES
                                (before ++ row :: after) video_folder))
          <= List.length before)%nat)
  /\
  (forall id tokens1 tokens2 lists,
     row !! "id" = Some (Some id) ->
     Py.split ";" actions = tokens1 ++ tok :: tokens2 ->
     Charades.actions_loop float CHARADES_CLASSES tokens1 [] [] = Ok lists ->
     Charades.example_of_row float CHARADES_CLASSES video_folder row
       = Raise (KeyError code) /\
     forall before after exs,
       Forall2 (fun r ex =>
                  Charades.example_of_row float CHARADES_CLASSES video_folder r = Ok ex)
               before exs ->
       Charades._generate_examples float CHARADES_CLASSES
         (before ++ row :: after) video_folder
       = yields_then (numbered exs) (Raises (KeyError code))).
Proof.
  intros Hrow Hin Hunk.
  assert (Hfail : exists e,
    Charades.example_of_row float CHARADES_CLASSES video_folder row = Raise e).
  { apply (example_of_row_actions_fail float CHARADES_CLASSES video_folder row actions Hrow).
    now apply (actions_loop_unknown float CHARADES_CLASSES tok code). }
  split; [exact Hfail | split].
  - intros before after.
    now apply (rows_loop_abort float CHARADES_CLASSES video_folder before after row 0).
  - intros id tokens1 tokens2 lists Hid Hsplit Hloop.
    assert (Hexact : Charades.example_of_row float CHARADES_CLASSES video_folder row
                     = Raise (KeyError code)).
    { apply (example_of_row_actions_Raise float CHARADES_CLASSES video_folder
               row id actions _ Hid Hrow).
      rewrite Hsplit, actions_loop_app, Hloop. cbn [bind].
      now apply actions_loop_unknown_here. }
    split; [exact Hexact|].
    intros before after exs Hall.
    now apply (generate_raise float CHARADES_CLASSES video_folder before after row exs).
Qed.

Lemma C4_unknown_code_aborts_witness :
  Sample.row_unknown "E5TY3" !! "actions" = Some (Some "czzz 1.0 2.0") /\
  "czzz 1.0 2.0" ∈ Py.split ";" "czzz 1.0 2.0" /\
  unknown_code Sample.classes "czzz 1.0 2.0" "czzz" /\
  Charades._generate_examples Sample.float Sample.classes
    ([Sample.row_AO8RW] ++ Sample.row_unknown "E5TY3" :: [Sample.row_AO8RW])
    "/data/Charades_v1"
  = Yield (0, Sample.example_AO8RW) (Raises (KeyError "czzz")).
Proof.
  assert (Hin : "czzz 1.0 2.0" ∈ Py.split ";" "czzz 1.0 2.0")
    by apply list_elem_of_here.
  assert (Hunk : unknown_code Sample.classes "czzz 1.0 2.0" "czzz")
    by (split; [discriminate | split; reflexivity]).
  split; [reflexivity | split; [exact Hin | split; [exact Hunk|]]].
  destruct (C4_unknown_code_aborts Sample.float Sample.classes "/data/Charades_v1"
              (Sample.row_unknown "E5TY3") "czzz 1.0 2.0" "czzz 1.0 2.0" "czzz"
              eq_refl Hin Hunk) as (_ & _ & Hexact).
  destruct (Hexact "E5TY3" [] [] ([], []) eq_refl eq_refl eq_refl) as [_ Hrun].
  apply (Hrun [Sample.row_AO8RW] [Sample.row_AO8RW] [Sample.example_AO8RW]).
  constructor; [vm_compute; reflexivity | constructor].
Defined.

(** C5. The inner loop skips the tokens that are the empty string: it
    runs exactly as on the non-empty tokens alone, so the lists of a
    yielded example come from those tokens only, and an empty actions
    cell gives no label and no timing list. *)
Theorem C5_empty_tokens_discarded {F : Type} (float : string -> option F)
    (CHARADES_CLASSES : list (string * string)) (video_folder : string) :
  (forall tokens labels timings,
     Charades.actions_loop float CHARADES_CLASSES tokens labels timings =
     Charades.actions_loop float CHARADES_CLASSES
       (filter (fun tok => tok <> "") tokens) labels timings)
  /\
  (forall row actions ex,
     row !! "actions" = Some (Some actions) ->
     Charades.example_of_row float CHARADES_CLASSES video_folder row = Ok ex ->
     Charades.actions_loop float CHARADES_CLASSES
       (filter (fun tok => tok <> "") (Py.split ";" actions)) [] []
     = Ok (Example.labels ex, Example.action_timings ex))
  /\
  (forall row ex,
     row !! "actions" = Some (Some "") ->
     Charades.example_of_row float CHARADES_CLASSES video_folder row = Ok ex ->
     Example.labels ex = [] /\ Example.action_timings ex = []).
Proof.
  assert (Hrow : forall row actions ex,
     row !! "actions" = Some (Some actions) ->
     Charades.example_of_row float CHARADES_CLASSES video_folder row = Ok ex ->
     Charades.actions_loop float CHARADES_CLASSES
       (filter (fun tok => tok <> "") (Py.split ";" actions)) [] []
     = Ok (Example.labels ex, Example.action_timings ex)).
  { intros row actions ex Hact Hex.
    apply example_of_row_Ok in Hex
      as (id & actions' & lists & q & r & o & d & _ & Hact' & Hloop & _ & _ & _ & _
          & _ & _ & _ & _ & _ & ->).
    assert (actions' = actions) as -> by congruence.
    rewrite <- actions_loop_filter, Hloop. now destruct lists. }
  split; [apply actions_loop_filter | split; [exact Hrow|]].
  intros row ex Hact Hex.
  specialize (Hrow row "" ex Hact Hex). cbn in Hrow. now injection Hrow.
Qed.

Lemma C5_empty_tokens_discarded_witness :
  Sample.row_no_actions !! "actions" = Some (Some "") /\
  Charades.example_of_row Sample.float Sample.classes "/data/Charades_v1"
    Sample.row_no_actions = Ok Sample.example_no_actions /\
  Example.labels Sample.example_no_actions = [] /\
  Example.action_timings Sample.example_no_actions = [].
Proof.
  split; [reflexivity|]. split; [vm_compute; reflexivity|].
  destruct (C5_empty_tokens_discarded Sample.float Sample.classes "/data/Charades_v1")
    as (_ & _ & Hempty).
  apply (Hempty Sample.row_no_actions); [reflexivity | vm_compute; reflexivity].
Defined.

(** C6. In every example yielded, the objects and the descriptions are
    the [;]-split of the raw cells, every piece kept as it is: joining
    them with [;] gives the cell back.  So [c090;c148;] yields the three
    pieces [c090], [c148] and the empty string, and an empty cell yields
    the list holding one empty string. *)
Theorem C6_objects_descriptions_split {F : Type} (float : string -> option F)
    (CHARADES_CLASSES : list (string * string)) (video_folder : string)
    (row : row) (ex : Example.t F) :
  Charades.example_of_row float CHARADES_CLASSES video_folder row = Ok ex ->
  exists objects descriptions,
    row !! "objects" = Some (Some objects) /\
    row !! "descriptions" = Some (Some descriptions) /\
    Example.objects ex = Py.split ";" objects /\
    Example.descriptions ex = Py.split ";" descriptions /\
    Py.join ";" (Example.objects ex) = objects /\
    Py.join ";" (Example.descriptions ex) = descriptions /\
    (objects = "c090;c148;" -> Example.objects ex = ["c090"; "c148"; ""]) /\
    (objects = "" -> Example.objects ex = [""]) /\
    (descriptions = "" -> Example.descriptions ex = [""]).
Proof.
  intros Hex.
  apply example_of_row_Ok in Hex
    as (id & actions & lists & q & r & o & d & _ & _ & _ & _ & _ & Ho & Hd
        & _ & _ & _ & _ & _ & ->).
  exists o, d. cbn [Example.objects Example.descriptions].
  rewrite !join_split.
  repeat split; try assumption; now intros ->.
Qed.

Lemma C6_objects_descriptions_split_witness :
  Charades.example_of_row Sample.float Sample.classes "/data/Charades_v1"
    Sample.row_AO8RW = Ok Sample.example_AO8RW /\
  exists objects descriptions,
    Sample.row_AO8RW !! "objects" = Some (Some objects) /\
    Sample.row_AO8RW !! "descriptions" = Some (Some descriptions) /\
    Example.objects Sample.example_AO8RW = Py.split ";" objects /\
    Example.descriptions Sample.example_AO8RW = Py.split ";" descriptions /\
    Py.join ";" (Example.objects Sample.example_AO8RW) = objects /\
    Py.join ";" (Example.descriptions Sample.example_AO8RW) = descriptions /\
    (objects = "c090;c148;" ->
     Example.objects Sample.example_AO8RW = ["c090"; "c148"; ""]) /\
    (objects = "" -> Example.objects Sample.example_AO8RW = [""]) /\
    (descriptions = "" -> Example.descriptions Sample.example_AO8RW = [""]).
Proof.
  split; [vm_compute; reflexivity|].
  apply (C6_objects_descriptions_split Sample.float Sample.classes
           "/data/Charades_v1" Sample.row_AO8RW).
  vm_compute. reflexivity.
Defined.

(** C7. In every example yielded, the video path is the video folder
    joined with the row's id by [os.path.join], followed by [.mp4]; the
    code appends the suffix before joining, which gives the same path.
    On a folder that is not empty and does not end with a separator and
    an id that does not start with one, that is folder, separator, id,
    suffix; [AO8RW] under [/data/Charades_v1] gives
    [/data/Charades_v1/AO8RW.mp4].  The path is a function of the two
    strings alone. *)
Theorem C7_video_path {F : Type} (float : string -> option F)
    (CHARADES_CLASSES : list (string * string)) (video_folder : string)
    (row : row) (ex : Example.t F) :
  Charades.example_of_row float CHARADES_CLASSES video_folder row = Ok ex ->
  exists id,
    row !! "id" = Some (Some id) /\
    Example.video_id ex = Some id /\
    Example.video ex = Spec.videoPath video_folder id /\
    (video_folder <> "" -> Py.endswith "/" video_folder = false ->
     Py.startswith "/" id = false ->
     Example.video ex = video_folder +:+ "/" +:+ id +:+ ".mp4") /\
    (video_folder = "/data/Charades_v1" -> id = "AO8RW" ->
     Example.video ex = "/data/Charades_v1/AO8RW.mp4").
Proof.
  intros Hex.
  apply example_of_row_Ok in Hex
    as (id & actions & lists & q & r & o & d & Hid & _ & _ & _ & _ & _ & _
        & _ & _ & _ & _ & _ & ->).
  exists id. cbn [Example.video Example.video_id]. unfold Spec.videoPath.
  split; [exact Hid | split; [reflexivity | split; [apply os_path_join_suffix | split]]].
  - intros Hne Hend Hstart.
    rewrite os_path_join_suffix, os_path_join_plain by assumption.
    rewrite append_assoc. reflexivity.
  - now intros -> ->.
Qed.

Lemma C7_video_path_witness :
  Charades.example_of_row Sample.float Sample.classes "/data/Charades_v1"
    Sample.row_AO8RW = Ok Sample.example_AO8RW /\
  exists id,
    Sample.row_AO8RW !! "id" = Some (Some id) /\
    Example.video_id Sample.example_AO8RW = Some id /\
    Example.video Sample.example_AO8RW = Spec.videoPath "/data/Charades_v1" id /\
    ("/data/Charades_v1" <> "" -> Py.endswith "/" "/data/Charades_v1" = false ->
     Py.startswith "/" id = false ->
     Example.video Sample.example_AO8RW = "/data/Charades_v1" +:+ "/" +:+ id +:+ ".mp4") /\
    ("/data/Charades_v1" = "/data/Charades_v1" -> id = "AO8RW" ->
     Example.video Sample.example_AO8RW = "/data/Charades_v1/AO8RW.mp4").
Proof.
  split; [vm_compute; reflexivity|].
  apply (C7_video_path Sample.float Sample.classes "/data/Charades_v1" Sample.row_AO8RW).
  vm_compute. reflexivity.
Defined.

(** C8. In every example yielded, the length is the cell of the row's
    [length] column, untouched; the schema of [_info] declares that
    field as a [float32] value. *)
Theorem C8_length_passthrough {F : Type} (float : string -> option F)
    (CHARADES_CLASSES : list (string * string)) (video_folder : string)
    (row : row) (ex : Example.t F) :
  Charades.example_of_row float CHARADES_CLASSES video_folder row = Ok ex ->
  row !! "length" = Some (Example.length ex) /\
  table_getitem (Charades._info CHARADES_CLASSES) "length" = Ok (Value "float32").
Proof.
  intros Hex.
  apply example_of_row_Ok in Hex
    as (id & actions & lists & q & r & o & d & _ & _ & _ & _ & _ & _ & _
        & _ & _ & _ & _ & Hlen & _).
  split; [exact Hlen | reflexivity].
Qed.

Lemma C8_length_passthrough_witness :
  Charades.example_of_row Sample.float Sample.classes "/data/Charades_v1"
    Sample.row_AO8RW = Ok Sample.example_AO8RW /\
  Sample.row_AO8RW !! "length" = Some (Some "30.96") /\
  table_getitem (Charades._info Sample.classes) "length" = Ok (Value "float32").
Proof.
  split; [vm_compute; reflexivity|].
  apply (C8_length_passthrough Sample.float Sample.classes "/data/Charades_v1"
           Sample.row_AO8RW Sample.example_AO8RW).
  vm_compute. reflexivity.
Defined.

(** C9. On the same rows, video folder, class table and [float], the
    generator of [charadesMeddled.py] produces the trace of the generator
    of [charades.py], yield for yield and exception for exception, and
    the two files declare the same features. *)
Theorem C9_files_agree {F : Type} (float : string -> option F)
    (CHARADES_CLASSES : list (string * string)) (reader : list row)
    (video_folder : string) :
  CharadesMeddled._generate_examples float CHARADES_CLASSES reader video_folder
  = Charades._generate_examples float CHARADES_CLASSES reader video_folder
  /\
  CharadesMeddled._info CHARADES_CLASSES = Charades._info CHARADES_CLASSES.
Proof. split; [apply meddled_generate_examples | reflexivity]. Qed.

(** C10. If the rows before some row all parse, the generator yields
    their examples numbered 0, 1, 2, ... in row order; if the next row
    raises, the exception escapes right after them, with no pair for the
    failing row and no index spent on it.  If every row parses, the
    numbered examples are all that is yielded.  Both files behave so. *)
Theorem C10_indices_and_abort {F : Type} (float : string -> option F)
    (CHARADES_CLASSES : list (string * string)) (video_folder : string)
    (before : list row) (exs : list (Example.t F)) :
  Forall2 (fun row ex =>
             Charades.example_of_row float CHARADES_CLASSES video_folder row = Ok ex)
          before exs ->
  (Charades._generate_examples float CHARADES_CLASSES before video_folder
   = yields_then (numbered exs) StopIteration /\
   CharadesMeddled._generate_examples float CHARADES_CLASSES before video_folder
   = yields_then (numbered exs) StopIteration)
  /\
  (forall row after e,
     Charades.example_of_row float CHARADES_CLASSES video_folder row = Raise e ->
     Charades._generate_examples float CHARADES_CLASSES
       (before ++ row :: after) video_folder
     = yields_then (numbered exs) (Raises e) /\
     CharadesMeddled._generate_examples float CHARADES_CLASSES
       (before ++ row :: after) video_folder
     = yields_then (numbered exs) (Raises e) /\
     yielded (Charades._generate_examples float CHARADES_CLASSES
                (before ++ row :: after) video_folder) = numbered exs /\
     map fst (numbered exs) = map Z.of_nat (seq 0 (List.length before))).
Proof.
  intros Hall. split.
  - split; [|rewrite meddled_generate_examples];
      now apply (generate_all float CHARADES_CLASSES video_folder).
  - intros row after e Hrow.
    pose proof (generate_raise float CHARADES_CLASSES video_folder
                  before after row exs e Hall Hrow) as Hrun.
    split; [exact Hrun | split; [now rewrite meddled_generate_examples | split]].
    + rewrite Hrun, yielded_yields_then. apply app_nil_r.
    + rewrite (Forall2_length _ _ _ Hall). apply numbered_indices.
Qed.

Lemma C10_indices_and_abort_witness :
  Forall2 (fun row ex =>
             Charades.example_of_row Sample.float Sample.classes
               "/data/Charades_v1" row = Ok ex)
          [Sample.row_AO8RW; Sample.row_no_actions]
          [Sample.example_AO8RW; Sample.example_no_actions] /\
  Charades.example_of_row Sample.float Sample.classes "/data/Charades_v1"
    (Sample.row_unknown "E5TY3") = Raise (KeyError "czzz") /\
  Charades._generate_examples Sample.float Sample.classes
    ([Sample.row_AO8RW; Sample.row_no_actions]
       ++ Sample.row_unknown "E5TY3" :: [Sample.row_AO8RW])
    "/data/Charades_v1"
  = Yield (0, Sample.example_AO8RW)
      (Yield (1, Sample.example_no_actions) (Raises (KeyError "czzz"))).
Proof.
  assert (Hall : Forall2 (fun row ex =>
             Charades.example_of_row Sample.float Sample.classes
               "/data/Charades_v1" row = Ok ex)
          [Sample.row_AO8RW; Sample.row_no_actions]
          [Sample.example_AO8RW; Sample.example_no_actions]).
  { constructor; [vm_compute; reflexivity|].
    constructor; [vm_compute; reflexivity | constructor]. }
  split; [exact Hall | split; [vm_compute; reflexivity|]].
  destruct (C10_indices_and_abort Sample.float Sample.classes "/data/Charades_v1"
              _ _ Hall) as [_ Hraise].
  destruct (Hraise (Sample.row_unknown "E5TY3") [Sample.row_AO8RW] (KeyError "czzz"))
    as [Hrun _]; [vm_compute; reflexivity|].
  exact Hrun.
Defined.

(** * Further properties of the generator *)

(** ** Helper lemmas *)

Lemma table_getitem_Ok_elem {V : Type} (table : list (string * V)) (key : string) (v : V) :
  table_getitem table key = Ok v -> (key, v) ∈ table.
Proof.
  induction table as [|[k v'] table IH]; cbn [table_getitem]; [discriminate|].
  destruct (String.eqb k key) eqn:Hk.
  - apply String.eqb_eq in Hk as ->. intros [= ->]. apply list_elem_of_here.
  - intros H. apply list_elem_of_further, IH, H.
Qed.

Section Traces.

Context {F : Type}.
Variable float : string -> option F.
Variable CHARADES_CLASSES : list (string * string).
Variable video_folder : string.

Let example_of_row := Charades.example_of_row float CHARADES_CLASSES video_folder.
Let rows_loop := Charades.rows_loop float CHARADES_CLASSES video_folder.

Lemma rows_loop_cons (reader : list row) (row : row) (idx : Z) :
  rows_loop (row :: reader) idx =
    match example_of_row row with
    | Ok example => Yield (idx, example) (rows_loop reader (idx + 1))
    | Raise e => Raises e
    end.
Proof. reflexivity. Qed.

(** The pair yielded in position [i] carries the index of that position
    and the example of the row in that position. *)
Lemma rows_loop_lookup (reader : list row) (idx : Z) (i : nat) (j : Z) (ex : Example.t F) :
  yielded (rows_loop reader idx) !! i = Some (j, ex) ->
  j = idx + Z.of_nat i /\
  exists row, reader !! i = Some row /\ example_of_row row = Ok ex.
Proof.
  revert idx i. induction reader as [|row reader IH]; intros idx i; [discriminate|].
  rewrite rows_loop_cons.
  destruct (example_of_row row) as [ex0|e] eqn:Hrow; [|discriminate].
  cbn [yielded]. destruct i as [|i].
  - intros [= <- <-]. split; [lia | now exists row].
  - intros H. apply IH in H as [-> Hrow']. split; [lia | exact Hrow'].
Qed.

Lemma rows_loop_length (reader : list row) (idx : Z) :
  (List.length (yielded (rows_loop reader idx)) <= List.length reader)%nat /\
  (outcome (rows_loop reader idx) = None <->
   List.length (yielded (rows_loop reader idx)) = List.length reader).
Proof.
  revert idx. induction reader as [|row reader IH]; intros idx; [now split|].
  rewrite rows_loop_cons.
  destruct (example_of_row row) as [ex|e].
  - destruct (IH (idx + 1)) as [Hle Hiff]. cbn [yielded outcome List.length].
    split; [lia|]. rewrite Hiff. split; intros H; lia.
  - cbn. split; [lia | split; intros H; discriminate].
Qed.

(** A run that raised is not changed by rows appended to the file; a
    run that did not is extended by the run over the appended rows. *)
Lemma rows_loop_more (reader more : list row) (idx : Z) :
  match outcome (rows_loop reader idx) with
  | Some _ => rows_loop (reader ++ more) idx = rows_loop reader idx
  | None =>
      rows_loop (reader ++ more) idx =
      yields_then (yielded (rows_loop reader idx))
        (rows_loop more (idx + Z.of_nat (List.length reader)))
  end.
Proof.
  revert idx. induction reader as [|row reader IH]; intros idx.
  - cbn. now rewrite Z.add_0_r.
  - cbn [app]. rewrite !rows_loop_cons.
    destruct (example_of_row row) as [ex|e]; [|reflexivity].
    cbn [outcome yielded]. specialize (IH (idx + 1)).
    destruct (outcome (rows_loop reader (idx + 1))).
    + now rewrite IH.
    + rewrite IH. cbn [yields_then foldr List.length].
      replace (idx + Z.of_nat (S (List.length reader)))
        with (idx + 1 + Z.of_nat (List.length reader)) by lia.
      reflexivity.
Qed.

End Traces.

Lemma Forall3_Forall_m {A B C : Type} (R : A -> B -> C -> Prop) (P : B -> Prop)
    (l : list A) (k : list B) (k' : list C) :
  (forall x y z, R x y z -> P y) -> Forall3 R l k k' -> Forall P k.
Proof. intros HR H. induction H; constructor; eauto. Qed.

Lemma int_or_sentinel_missing (row : row) (key : string) :
  row !! key = None -> Charades.int_or_sentinel row key = Raise (KeyError key).
Proof. intros H. unfold Charades.int_or_sentinel, getitem. now rewrite H. Qed.

Lemma int_or_sentinel_None (row : row) (key : string) :
  row !! key = Some None -> Charades.int_or_sentinel row key = Raise TypeError.
Proof. intros H. unfold Charades.int_or_sentinel, getitem. now rewrite H. Qed.

Lemma getitem_missing {V : Type} (d : gmap string V) (key : string) :
  d !! key = None -> getitem d key = Raise (KeyError key).
Proof. intros H. unfold getitem. now rewrite H. Qed.

Lemma list_map_app_Raise {A : Type} (conv : conversion) (f : string -> option A)
    (l1 l2 : list string) (bad : string) (xs : list A) :
  list_map conv f l1 = Ok xs -> f bad = None ->
  list_map conv f (l1 ++ bad :: l2) = Raise (ValueError conv bad).
Proof.
  revert xs. induction l1 as [|s l1 IH]; intros xs Hok Hbad.
  - cbn. now rewrite Hbad.
  - cbn [app list_map] in *. destruct (f s) as [x|]; [|discriminate].
    apply bind_Ok in Hok as (xs' & Hxs' & _). now rewrite (IH xs' Hxs' Hbad).
Qed.

(** Run the body of the loop in the goal, using the outcomes of its
    steps that the context records. *)
Ltac run_row :=
  repeat first
    [ progress cbn [bind str_add str_split fst snd]
    | match goal with
      | H : getitem ?r ?k = _ |- context [getitem ?r ?k] => rewrite H
      | H : Charades.int_or_sentinel ?r ?k = _
        |- context [Charades.int_or_sentinel ?r ?k] => rewrite H
      | H : Charades.actions_loop _ _ ?t _ _ = _
        |- context [Charades.actions_loop _ _ ?t _ _] => rewrite H
      end ].

(** Carry what a successful run on [<[key := v]> row] says about the
    other columns over to [row]. *)
Ltac other_columns :=
  repeat match goal with
    | H : <[_ := _]> ?r !! ?k = Some _ |- _ =>
        first [ rewrite lookup_insert_ne in H by discriminate; apply getitem_Ok in H
              | clear H ]
    | H : Charades.int_or_sentinel (<[_ := _]> ?r) ?k = Ok _ |- _ =>
        first [ rewrite int_or_sentinel_insert_ne in H by discriminate
              | clear H ]
    end.

(** The converse of [example_of_row_Ok]: steps that all succeed build
    the example. *)
Lemma example_of_row_run {F : Type} (float : string -> option F)
    (CHARADES_CLASSES : list (string * string)) (video_folder : string) (row : row)
    (id actions objects descriptions : string)
    (subject scene verified script length : cell)
    (lists : list string * list (list F)) (quality relevance : Z) :
  row !! "id" = Some (Some id) ->
  row !! "actions" = Some (Some actions) ->
  Charades.actions_loop float CHARADES_CLASSES (Py.split ";" actions) [] [] = Ok lists ->
  row !! "subject" = Some subject ->
  row !! "scene" = Some scene ->
  Charades.int_or_sentinel row "quality" = Ok quality ->
  Charades.int_or_sentinel row "relevance" = Ok relevance ->
  row !! "verified" = Some verified ->
  row !! "script" = Some script ->
  row !! "objects" = Some (Some objects) ->
  row !! "descriptions" = Some (Some descriptions) ->
  row !! "length" = Some length ->
  Charades.example_of_row float CHARADES_CLASSES video_folder row =
    Ok (Example.mk (Some id) (Py.os_path_join video_folder (id +:+ ".mp4"))
          subject scene quality relevance verified script
          (Py.split ";" objects) (Py.split ";" descriptions)
          (fst lists) (snd lists) length).
Proof.
  intros Hid%getitem_Ok Hact%getitem_Ok Hloop Hsub%getitem_Ok Hsc%getitem_Ok Hq Hr
         Hver%getitem_Ok Hscr%getitem_Ok Ho%getitem_Ok Hd%getitem_Ok Hlen%getitem_Ok.
  unfold Charades.example_of_row. run_row. reflexivity.
Qed.

(** ** Rows with a missing or unfilled column *)

(** X1. A row that lacks one of the columns the body reads, and that
    parses once that column is supplied, raises the [KeyError] of that
    column's name. *)
Theorem X1_missing_column_KeyError {F : Type} (float : string -> option F)
    (CHARADES_CLASSES : list (string * string)) (video_folder : string)
    (row : row) (key : string) (v : cell) (ex : Example.t F) :
  key ∈ columns ->
  row !! key = None ->
  Charades.example_of_row float CHARADES_CLASSES video_folder (<[key := v]> row) = Ok ex ->
  Charades.example_of_row float CHARADES_CLASSES video_folder row = Raise (KeyError key).
Proof.
  intros Hkey Hnone Hok.
  pose proof (getitem_missing row key Hnone) as Hget.
  pose proof (int_or_sentinel_missing row key Hnone) as Hint.
  apply example_of_row_Ok in Hok
    as (id & actions & lists & q & r & o & d & Hid & Hact & Hloop & Hq & Hr & Ho & Hd
        & Hsub & Hsc & Hver & Hscr & Hlen & _).
  unfold columns in Hkey.
  repeat (apply elem_of_cons in Hkey as [->|Hkey]);
    [ .. | now apply elem_of_nil in Hkey ];
    other_columns; unfold Charades.example_of_row; run_row; reflexivity.
Qed.

Lemma X1_missing_column_KeyError_witness :
  "scene" ∈ columns /\
  delete "scene" Sample.row_AO8RW !! "scene" = None /\
  Charades.example_of_row Sample.float Sample.classes "/data/Charades_v1"
    (<["scene" := Some "Kitchen"]> (delete "scene" Sample.row_AO8RW))
    = Ok Sample.example_AO8RW /\
  Charades.example_of_row Sample.float Sample.classes "/data/Charades_v1"
    (delete "scene" Sample.row_AO8RW) = Raise (KeyError "scene").
Proof.
  assert (Hin : "scene" ∈ columns)
    by (unfold columns; do 3 apply list_elem_of_further; apply list_elem_of_here).
  split; [exact Hin | split; [reflexivity | split; [vm_compute; reflexivity|]]].
  apply (X1_missing_column_KeyError Sample.float Sample.classes "/data/Charades_v1"
           (delete "scene" Sample.row_AO8RW) "scene" (Some "Kitchen")
           Sample.example_AO8RW Hin);
    [reflexivity | vm_compute; reflexivity].
Defined.

(** X2. A cell the reader left as [None] (a line shorter than the
    header), in a row that parses once the cell holds text: in the id,
    quality or relevance column the row raises [TypeError]; in the
    actions, objects or descriptions column it raises [AttributeError];
    in the subject, scene, verified, script or length column the row
    still yields an example, whose computed fields are unchanged. *)
Theorem X2_unfilled_cell {F : Type} (float : string -> option F)
    (CHARADES_CLASSES : list (string * string)) (video_folder : string)
    (row : row) (key : string) (v : cell) (ex : Example.t F) :
  row !! key = Some None ->
  Charades.example_of_row float CHARADES_CLASSES video_folder (<[key := v]> row) = Ok ex ->
  (key ∈ ["id"; "quality"; "relevance"] ->
   Charades.example_of_row float CHARADES_CLASSES video_folder row = Raise TypeError)
  /\
  (key ∈ ["actions"; "objects"; "descriptions"] ->
   Charades.example_of_row float CHARADES_CLASSES video_folder row = Raise AttributeError)
  /\
  (key ∈ ["subject"; "scene"; "verified"; "script"; "length"] ->
   exists ex',
     Charades.example_of_row float CHARADES_CLASSES video_folder row = Ok ex' /\
     Example.video_id ex' = Example.video_id ex /\
     Example.video ex' = Example.video ex /\
     Example.quality ex' = Example.quality ex /\
     Example.relevance ex' = Example.relevance ex /\
     Example.objects ex' = Example.objects ex /\
     Example.descriptions ex' = Example.descriptions ex /\
     Example.labels ex' = Example.labels ex /\
     Example.action_timings ex' = Example.action_timings ex).
Proof.
  intros Hcell Hok.
  pose proof (proj2 (getitem_Ok row key None) Hcell) as Hget.
  pose proof (int_or_sentinel_None row key Hcell) as Hint.
  apply example_of_row_Ok in Hok
    as (id & actions & lists & q & r & o & d & Hid & Hact & Hloop & Hq & Hr & Ho & Hd
        & Hsub & Hsc & Hver & Hscr & Hlen & Hex).
  split; [|split]; intros Hkey.
  - repeat (apply elem_of_cons in Hkey as [->|Hkey]);
      [ .. | now apply elem_of_nil in Hkey ];
      other_columns; unfold Charades.example_of_row; run_row; reflexivity.
  - repeat (apply elem_of_cons in Hkey as [->|Hkey]);
      [ .. | now apply elem_of_nil in Hkey ];
      other_columns; unfold Charades.example_of_row; run_row; reflexivity.
  - repeat (apply elem_of_cons in Hkey as [->|Hkey]);
      [ .. | now apply elem_of_nil in Hkey ];
      other_columns; eexists;
      (split; [unfold Charades.example_of_row; run_row; reflexivity|]);
      rewrite Hex; cbn; repeat split; reflexivity.
Qed.

Lemma X2_unfilled_cell_witness :
  <["actions" := None]> Sample.row_AO8RW !! "actions" = Some None /\
  Charades.example_of_row Sample.float Sample.classes "/data/Charades_v1"
    (<["actions" := Some "c092 11.0 13.0;c147 0.0 5.0"]>
       (<["actions" := None]> Sample.row_AO8RW)) = Ok Sample.example_AO8RW /\
  Charades.example_of_row Sample.float Sample.classes "/data/Charades_v1"
    (<["actions" := None]> Sample.row_AO8RW) = Raise AttributeError.
Proof.
  split; [reflexivity | split; [vm_compute; reflexivity|]].
  destruct (X2_unfilled_cell Sample.float Sample.classes "/data/Charades_v1"
              (<["actions" := None]> Sample.row_AO8RW) "actions"
              (Some "c092 11.0 13.0;c147 0.0 5.0") Sample.example_AO8RW)
    as (_ & Hattr & _); [reflexivity | vm_compute; reflexivity |].
  apply Hattr, list_elem_of_here.
Defined.

(** ** Malformed timings *)

(** X3. In a row whose id is present, if the tokens before some
    non-empty token parse, that token's class code is in the table, and
    [bad] is the first of its timing pieces that [float] rejects, then
    the row raises the [ValueError] of [bad], and the generator ends with
    it right after the examples of the rows before, whatever follows. *)
Theorem X3_malformed_timing {F : Type} (float : string -> option F)
    (CHARADES_CLASSES : list (string * string)) (video_folder : string)
    (row : row) (id actions tok code label bad : string)
    (tokens1 tokens2 pieces1 pieces2 : list string)
    (lists : list string * list (list F)) (ts1 : list F) :
  row !! "id" = Some (Some id) ->
  row !! "actions" = Some (Some actions) ->
  Py.split ";" actions = tokens1 ++ tok :: tokens2 ->
  Charades.actions_loop float CHARADES_CLASSES tokens1 [] [] = Ok lists ->
  tok <> "" ->
  list_getitem (Py.split " " tok) 0 = Ok code ->
  table_getitem CHARADES_CLASSES code = Ok label ->
  drop 1 (Py.split " " tok) = pieces1 ++ bad :: pieces2 ->
  list_map ConvFloat float pieces1 = Ok ts1 ->
  float bad = None ->
  Charades.example_of_row float CHARADES_CLASSES video_folder row
    = Raise (ValueError ConvFloat bad)
  /\
  forall before after exs,
    Forall2 (fun r ex =>
               Charades.example_of_row float CHARADES_CLASSES video_folder r = Ok ex)
            before exs ->
    Charades._generate_examples float CHARADES_CLASSES
      (before ++ row :: after) video_folder
    = yields_then (numbered exs) (Raises (ValueError ConvFloat bad)).
Proof.
  intros Hid Hact Hsplit Hloop Hne Hcode Hlabel Hpieces Hts1 Hbad.
  assert (Hrow : Charades.example_of_row float CHARADES_CLASSES video_folder row
                 = Raise (ValueError ConvFloat bad)).
  { apply (example_of_row_actions_Raise float CHARADES_CLASSES video_folder
             row id actions _ Hid Hact).
    rewrite Hsplit, actions_loop_app, Hloop. cbn [bind].
    rewrite actions_loop_token by exact Hne.
    rewrite Hcode; cbn [bind]. rewrite Hlabel; cbn [bind].
    rewrite Hpieces, (list_map_app_Raise _ _ _ _ _ _ Hts1 Hbad). reflexivity. }
  split; [exact Hrow|].
  intros before after exs Hall.
  now apply (generate_raise float CHARADES_CLASSES video_folder before after row exs).
Qed.

Lemma X3_malformed_timing_witness :
  Charades.example_of_row Sample.float Sample.classes "/data/Charades_v1"
    (Sample.row_of "G3MN5" "4" "" "c092 1.0 2.0;c147 3.5 soon 9.0")
    = Raise (ValueError ConvFloat "soon").
Proof.
  apply (X3_malformed_timing Sample.float Sample.classes "/data/Charades_v1"
           (Sample.row_of "G3MN5" "4" "" "c092 1.0 2.0;c147 3.5 soon 9.0")
           "G3MN5" "c092 1.0 2.0;c147 3.5 soon 9.0" "c147 3.5 soon 9.0" "c147"
           "Fixing a light" "soon" ["c092 1.0 2.0"] [] ["3.5"] ["9.0"]
           (["Watching a laptop"], [[1.0%float; 2.0%float]]) [3.5%float]);
    try reflexivity; try discriminate.
Defined.

(** ** Rows that parse *)

(** X4. Sufficient conditions for a row to yield an example: the eleven
    columns are present; the id, actions, objects and descriptions cells
    hold text; the quality and relevance cells hold text that is empty or
    that [int] accepts; and every non-empty token of the actions cell
    parses.  The example is then the one built from these values. *)
Theorem X4_row_parses {F : Type} (float : string -> option F)
    (CHARADES_CLASSES : list (string * string)) (video_folder : string) (row : row)
    (id actions objects descriptions q r : string)
    (subject scene verified script length : cell)
    (labels : list string) (timings : list (list F)) (quality relevance : Z) :
  row !! "id" = Some (Some id) ->
  row !! "actions" = Some (Some actions) ->
  Forall3 (token_parsed float CHARADES_CLASSES)
          (filter (fun tok => tok <> "") (Py.split ";" actions)) labels timings ->
  row !! "subject" = Some subject ->
  row !! "scene" = Some scene ->
  row !! "quality" = Some (Some q) ->
  (if decide (q = "") then quality = -100 else Py.int q = Some quality) ->
  row !! "relevance" = Some (Some r) ->
  (if decide (r = "") then relevance = -100 else Py.int r = Some relevance) ->
  row !! "verified" = Some verified ->
  row !! "script" = Some script ->
  row !! "objects" = Some (Some objects) ->
  row !! "descriptions" = Some (Some descriptions) ->
  row !! "length" = Some length ->
  Charades.example_of_row float CHARADES_CLASSES video_folder row =
    Ok (Example.mk (Some id) (Py.os_path_join video_folder (id +:+ ".mp4"))
          subject scene quality relevance verified script
          (Py.split ";" objects) (Py.split ";" descriptions)
          labels timings length).
Proof.
  intros Hid Hact Htokens Hsub Hsc Hq Hqv Hr Hrv Hver Hscr Ho Hd Hlen.
  apply (example_of_row_run float CHARADES_CLASSES video_folder row id actions
           objects descriptions subject scene verified script length
           (labels, timings) quality relevance); try assumption.
  - now apply (actions_loop_complete float CHARADES_CLASSES _ [] labels [] timings).
  - rewrite (int_or_sentinel_cell _ _ _ Hq).
    destruct (decide (q = "")); [now subst | cbn [cell_int]; now rewrite Hqv].
  - rewrite (int_or_sentinel_cell _ _ _ Hr).
    destruct (decide (r = "")); [now subst | cbn [cell_int]; now rewrite Hrv].
Qed.

Lemma X4_row_parses_witness :
  Charades.example_of_row Sample.float Sample.classes "/data/Charades_v1"
    Sample.row_AO8RW = Ok Sample.example_AO8RW.
Proof.
  apply (X4_row_parses Sample.float Sample.classes "/data/Charades_v1"
           Sample.row_AO8RW "AO8RW" "c092 11.0 13.0;c147 0.0 5.0" "c090;c148;"
           "A person is cooking." "" "7"
           (Some "HR43") (Some "Kitchen") (Some "Yes") (Some "A person cooks.")
           (Some "30.96") ["Watching a laptop"; "Fixing a light"]
           [[11.0%float; 13.0%float]; [0.0%float; 5.0%float]] (-100) 7);
    try reflexivity.
  change (filter _ (Py.split ";" "c092 11.0 13.0;c147 0.0 5.0"))
    with ["c092 11.0 13.0"; "c147 0.0 5.0"].
  constructor; [exists "c092"; repeat split; reflexivity|].
  constructor; [exists "c147"; repeat split; reflexivity | constructor].
Defined.

(** X5. In every example yielded, the video id is the text of the row's
    id cell, never [None], and the subject, scene, verified and script
    fields are the row's cells exactly as the reader gave them. *)
Theorem X5_verbatim_fields {F : Type} (float : string -> option F)
    (CHARADES_CLASSES : list (string * string)) (video_folder : string)
    (row : row) (ex : Example.t F) :
  Charades.example_of_row float CHARADES_CLASSES video_folder row = Ok ex ->
  (exists id, row !! "id" = Some (Some id) /\ Example.video_id ex = Some id) /\
  row !! "subject" = Some (Example.subject ex) /\
  row !! "scene" = Some (Example.scene ex) /\
  row !! "verified" = Some (Example.verified ex) /\
  row !! "script" = Some (Example.script ex).
Proof.
  intros Hex.
  apply example_of_row_Ok in Hex
    as (id & actions & lists & q & r & o & d & Hid & _ & _ & _ & _ & _ & _
        & Hsub & Hsc & Hver & Hscr & _ & Hex).
  split; [exists id; split; [exact Hid | now rewrite Hex] | auto].
Qed.

Lemma X5_verbatim_fields_witness :
  (exists id, <["scene" := None]> Sample.row_no_actions !! "id" = Some (Some id) /\
              Some "F2ZX6" = Some id) /\
  <["scene" := None]> Sample.row_no_actions !! "scene" = Some None.
Proof.
  destruct (X5_verbatim_fields Sample.float Sample.classes "/data/Charades_v1"
              (<["scene" := None]> Sample.row_no_actions)
              (Example.mk (Some "F2ZX6") "/data/Charades_v1/F2ZX6.mp4"
                 (Some "HR43") None 5 7 (Some "Yes") (Some "A person cooks.")
                 [""] ["A person is cooking."] [] [] (Some "30.96")))
    as (Hid & _ & Hscene & _); [vm_compute; reflexivity|].
  split; [exact Hid | exact Hscene].
Defined.

(** ** The sequence of yielded pairs *)

(** X6. The pair yielded in position [i] has index [i] and holds the
    example of the [i]-th row of the file: rows are neither reordered,
    skipped nor merged. *)
Theorem X6_yield_is_row {F : Type} (float : string -> option F)
    (CHARADES_CLASSES : list (string * string)) (reader : list row)
    (video_folder : string) (i : nat) (idx : Z) (ex : Example.t F) :
  yielded (Charades._generate_examples float CHARADES_CLASSES reader video_folder) !! i
    = Some (idx, ex) ->
  idx = Z.of_nat i /\
  exists row,
    reader !! i = Some row /\
    Charades.example_of_row float CHARADES_CLASSES video_folder row = Ok ex.
Proof.
  intros H.
  apply (rows_loop_lookup float CHARADES_CLASSES video_folder reader 0 i idx ex) in H
    as [-> Hrow].
  split; [lia | exact Hrow].
Qed.

Lemma X6_yield_is_row_witness :
  1 = Z.of_nat 1 /\
  exists row,
    [Sample.row_AO8RW; Sample.row_no_actions; Sample.row_unknown "E5TY3"] !! 1%nat
      = Some row /\
    Charades.example_of_row Sample.float Sample.classes "/data/Charades_v1" row
      = Ok Sample.example_no_actions.
Proof.
  apply (X6_yield_is_row Sample.float Sample.classes
           [Sample.row_AO8RW; Sample.row_no_actions; Sample.row_unknown "E5TY3"]
           "/data/Charades_v1" 1%nat 1 Sample.example_no_actions).
  vm_compute. reflexivity.
Defined.

(** X7. The generator never yields more pairs than the file has rows,
    and it ends without an exception exactly when it has yielded one
    pair per row. *)
Theorem X7_one_pair_per_row {F : Type} (float : string -> option F)
    (CHARADES_CLASSES : list (string * string)) (reader : list row)
    (video_folder : string) :
  (List.length (yielded (Charades._generate_examples float CHARADES_CLASSES
                           reader video_folder))
     <= List.length reader)%nat
  /\
  (outcome (Charades._generate_examples float CHARADES_CLASSES reader video_folder)
     = None
   <->
   List.length (yielded (Charades._generate_examples float CHARADES_CLASSES
                           reader video_folder))
     = List.length reader).
Proof. apply rows_loop_length. Qed.

(** X8. Rows appended to a file do not change what the generator does on
    the rows before them: a run that raised is the same run, and a run
    that ended normally is continued by the run over the appended rows,
    started at the index that follows. *)
Theorem X8_appended_rows {F : Type} (float : string -> option F)
    (CHARADES_CLASSES : list (string * string)) (reader more : list row)
    (video_folder : string) :
  match outcome (Charades._generate_examples float CHARADES_CLASSES reader video_folder) with
  | Some _ =>
      Charades._generate_examples float CHARADES_CLASSES (reader ++ more) video_folder
      = Charades._generate_examples float CHARADES_CLASSES reader video_folder
  | None =>
      Charades._generate_examples float CHARADES_CLASSES (reader ++ more) video_folder
      = yields_then
          (yielded (Charades._generate_examples float CHARADES_CLASSES
                      reader video_folder))
          (Charades.rows_loop float CHARADES_CLASSES video_folder more
             (Z.of_nat (List.length reader)))
  end.
Proof.
  apply (rows_loop_more float CHARADES_CLASSES video_folder reader more 0).
Qed.

(** ** Labels and the declared schema *)

(** X9. [_info] declares the labels as a sequence of class labels whose
    names are the values of [CHARADES_CLASSES], as many classes as the
    table has entries; and every label of every example yielded is one
    of those names. *)
Theorem X9_labels_in_schema {F : Type} (float : string -> option F)
    (CHARADES_CLASSES : list (string * string)) (reader : list row)
    (video_folder : string) :
  table_getitem (Charades._info CHARADES_CLASSES) "labels"
    = Ok (Sequence (ClassLabel (Z.of_nat (List.length (map snd CHARADES_CLASSES)))
                               (map snd CHARADES_CLASSES)))
  /\
  Forall (fun p => Forall (fun label => label ∈ map snd CHARADES_CLASSES)
                          (Example.labels p.2))
         (yielded (Charades._generate_examples float CHARADES_CLASSES reader video_folder)).
Proof.
  split; [cbn; now rewrite length_map|].
  apply (rows_loop_yielded float CHARADES_CLASSES video_folder
           (fun ex => Forall (fun label => label ∈ map snd CHARADES_CLASSES)
                             (Example.labels ex))).
  intros row ex Hex.
  apply example_of_row_Ok in Hex
    as (id & actions & lists & q & r & o & d & _ & _ & Hloop & _ & _ & _ & _
        & _ & _ & _ & _ & _ & Hex).
  rewrite Hex. cbn [Example.labels].
  apply actions_loop_Ok in Hloop as (ls & ts & -> & Hall). cbn [fst app].
  refine (Forall3_Forall_m _ _ _ _ _ _ Hall).
  intros tok label timings (code & _ & Hlabel%table_getitem_Ok_elem & _).
  apply list_elem_of_fmap. now exists (code, label).
Qed.

(** * Downloading and extracting *)

(** ** Actions *)

Lemma io_bind_Done {A B : Type} (c : IO.io A) (k : A -> IO.io B) (a : A)
    (w w1 : IO.world) :
  c w = (IO.Done a, w1) -> IO.bind c k w = k a w1.
Proof. intros H. unfold IO.bind. now rewrite H. Qed.

Lemma io_bind_Failed {A B : Type} (c : IO.io A) (k : A -> IO.io B) (e : IO.io_exn)
    (w w1 : IO.world) :
  c w = (IO.Failed e, w1) -> IO.bind c k w = (IO.Failed e, w1).
Proof. intros H. unfold IO.bind. now rewrite H. Qed.

Lemma io_bind_inv {A B : Type} (c : IO.io A) (k : A -> IO.io B) (b : B)
    (w w' : IO.world) :
  IO.bind c k w = (IO.Done b, w') ->
  exists a w1, c w = (IO.Done a, w1) /\ k a w1 = (IO.Done b, w').
Proof.
  unfold IO.bind. destruct (c w) as [[a|e] w1]; [eauto | discriminate].
Qed.

Lemma len_append (s1 s2 : string) : Py.len (s1 +:+ s2) = Py.len s1 + Py.len s2.
Proof.
  unfold Py.len. induction s1 as [|c s1 IH]; [reflexivity|].
  change (String c s1 +:+ s2) with (String c (s1 +:+ s2)).
  cbn [String.length]. lia.
Qed.

Lemma append_empty_r (s : string) : s +:+ "" = s.
Proof.
  induction s as [|c s IH]; [reflexivity|].
  change (String c s +:+ "") with (String c (s +:+ "")). now rewrite IH.
Qed.

Lemma world_eta (w : IO.world) :
  IO.mkWorld (IO.files w) (IO.dirs w) (IO.stdout w) (IO.extracted w) = w.
Proof. now destruct w. Qed.

(** ** [downloadWithProgress] *)

Section Download.

Variable requests_get : string -> IO.io_result Response.
Variable zip_namelist : string -> option (list string).
Variable tar_getmembers : string -> option (list string).
Variable extract_error : string -> IO.extraction -> option IO.io_exn.

Let downloadWithProgress :=
  CharadesMeddledSplits.downloadWithProgress requests_get.
Let extractWithProgress :=
  CharadesMeddledSplits.extractWithProgress zip_namelist tar_getmembers extract_error.

(** The loop appends every chunk to the file and counts its bytes. *)
Lemma download_loop_run (path : string) (data : list string) (n : Z)
    (old : string) (w : IO.world) :
  IO.files w !! path = Some old ->
  CharadesMeddledSplits.download_loop path data n w =
    (IO.Done (n + Py.len (foldr String.append "" data)),
     with_file path (old +:+ foldr String.append "" data) w).
Proof.
  revert n old w. induction data as [|chunk data IH]; intros n old w Hold.
  - cbn [CharadesMeddledSplits.download_loop foldr]. unfold IO.ret, with_file.
    rewrite append_empty_r, insert_id, world_eta by exact Hold.
    change (Py.len "") with 0. now rewrite Z.add_0_r.
  - cbn [CharadesMeddledSplits.download_loop foldr].
    unfold IO.bind at 1. cbn [IO.write].
    rewrite (IH _ (old +:+ chunk)).
    + f_equal; [f_equal; rewrite len_append; lia|].
      unfold with_file. cbn [IO.files IO.dirs IO.stdout IO.extracted].
      f_equal. rewrite append_assoc.
      apply map_eq. intros p. destruct (decide (p = path)) as [->|Hne].
      * now rewrite !lookup_insert_eq.
      * now rewrite !lookup_insert_ne, lookup_alter_ne by congruence.
    + cbn [IO.files]. now rewrite lookup_alter_eq, Hold.
Qed.

(** What a download does, read off the answer of the network. *)
Lemma downloadWithProgress_run (url path : string) (response : Response)
    (w : IO.world) :
  requests_get url = IO.Done response ->
  downloadWithProgress url path w =
    if andb (400 <=? status_code response) (status_code response <? 600)
    then (IO.Failed (IO.HTTPError (status_code response)), w)
    else
      match (match content_length response with
             | Some header => cell_int (Some header)
             | None => Ok 0
             end) with
      | Raise e => (IO.Failed (IO.Builtin e), w)
      | Ok totalSize =>
          match stream_error response with
          | Some e => (IO.Failed e, with_file path (body response) w)
          | None =>
              if andb (negb (totalSize =? 0))
                      (negb (Py.len (body response) =? totalSize))
              then (IO.Failed (IO.RuntimeError "Could not download file"),
                    with_file path (body response) w)
              else (IO.Done path, with_file path (body response) w)
          end
      end.
Proof.
  intros Hget.
  unfold downloadWithProgress, CharadesMeddledSplits.downloadWithProgress.
  unfold IO.bind at 1. rewrite Hget.
  unfold IO.bind at 1, CharadesMeddledSplits.raise_for_status.
  destruct (andb _ _); [reflexivity|]. cbn [IO.ret].
  unfold IO.bind at 1, CharadesMeddledSplits.total_size.
  destruct (match content_length response with
            | Some header => cell_int (Some header)
            | None => Ok 0
            end) as [totalSize|e] eqn:Htotal.
  - assert (Hsize : (match content_length response with
                     | Some header => IO.lift (cell_int (Some header))
                     | None => IO.ret 0
                     end) w = (IO.Done totalSize, w)).
    { destruct (content_length response); [rewrite Htotal | injection Htotal as <-];
        reflexivity. }
    rewrite Hsize.
    unfold IO.bind at 1. cbn [IO.open_wb].
    unfold IO.bind at 1.
    rewrite (download_loop_run path (chunks response) 0 "");
      [|cbn [IO.files]; apply lookup_insert_eq].
    assert (Hw : with_file path ("" +:+ foldr String.append "" (chunks response))
                   (IO.mkWorld (<[path := ""]> (IO.files w)) (IO.dirs w)
                      (IO.stdout w) (IO.extracted w))
                 = with_file path (body response) w).
    { unfold with_file, body. cbn [IO.files IO.dirs IO.stdout IO.extracted].
      f_equal. apply insert_insert_eq. }
    rewrite Hw. fold (body response). rewrite Z.add_0_l.
    unfold IO.bind at 1.
    destruct (stream_error response); [reflexivity|]. cbn [IO.ret].
    destruct (andb _ _); reflexivity.
  - destruct (content_length response) as [header|]; [|discriminate].
    rewrite Htotal. reflexivity.
Qed.

End Download.

(** ** [extractWithProgress] *)

Lemma with_output_nil (w : IO.world) : with_output [] [] w = w.
Proof. unfold with_output. now rewrite !app_nil_r, world_eta. Qed.

Lemma with_output_app (lines1 lines2 : list string) (calls1 calls2 : list IO.extraction)
    (w : IO.world) :
  with_output lines2 calls2 (with_output lines1 calls1 w)
  = with_output (lines1 ++ lines2) (calls1 ++ calls2) w.
Proof. unfold with_output. cbn. now rewrite !app_assoc. Qed.

Lemma print_run (line : string) (w : IO.world) :
  IO.print line w = (IO.Done tt, with_output [line] [] w).
Proof. unfold IO.print, with_output. now rewrite app_nil_r. Qed.

(** The loop issues the calls of the members in order, up to and
    including the first that raises, and counts those that returned. *)
Lemma extract_loop_run (error : IO.extraction -> option IO.io_exn)
    (call : string -> IO.extraction) (members : list string) (n : Z) (w : IO.world) :
  CharadesMeddledSplits.extract_loop error call members n w =
    (match (issued error (map call members)).2 with
     | Some e => IO.Failed e
     | None => IO.Done (n + Z.of_nat (List.length members))
     end,
     with_output [] (issued error (map call members)).1 w).
Proof.
  revert n w. induction members as [|member members IH]; intros n w.
  - cbn. now rewrite with_output_nil, Z.add_0_r.
  - cbn [CharadesMeddledSplits.extract_loop map issued].
    unfold IO.bind at 1. cbn [IO.extract].
    destruct (error (call member)) as [e|].
    + cbn [fst snd]. unfold with_output. now rewrite app_nil_r.
    + rewrite IH. cbn [fst snd]. f_equal.
      * destruct (issued error (map call members)).2; [reflexivity|].
        f_equal. cbn [List.length]. lia.
      * unfold with_output. cbn. now rewrite !app_nil_r, <- app_assoc.
Qed.

(** When every call returns, all of them are issued. *)
Lemma issued_all (error : IO.extraction -> option IO.io_exn) (calls : list IO.extraction) :
  Forall (fun call => error call = None) calls ->
  issued error calls = (calls, None).
Proof.
  induction 1 as [|call calls Hcall _ IH]; [reflexivity|].
  cbn [issued]. now rewrite Hcall, IH.
Qed.

(** The calls issued are an initial part of the calls asked for; when
    one raised, it is the last issued and the ones before it returned. *)
Lemma issued_prefix (error : IO.extraction -> option IO.io_exn) (calls : list IO.extraction) :
  (issued error calls).1 `prefix_of` calls /\
  match (issued error calls).2 with
  | None => (issued error calls).1 = calls
  | Some e =>
      exists done failed,
        (issued error calls).1 = done ++ [failed] /\
        error failed = Some e /\
        Forall (fun call => error call = None) done
  end.
Proof.
  induction calls as [|call calls [IHp IHe]]; [split; [reflexivity | reflexivity]|].
  cbn [issued]. destruct (error call) as [e|] eqn:Hcall.
  - cbn [fst snd]. split; [now exists calls|].
    exists [], call. now repeat split.
  - cbn [fst snd]. split; [now apply prefix_cons|].
    destruct (issued error calls).2 as [e|].
    + destruct IHe as (done & failed & -> & Hfailed & Hdone).
      exists (call :: done), failed. repeat split; [exact Hfailed | now constructor].
    + now rewrite IHe.
Qed.

Section Extract.

Variable zip_namelist : string -> option (list string).
Variable tar_getmembers : string -> option (list string).
Variable extract_error : string -> IO.extraction -> option IO.io_exn.

Let extractWithProgress :=
  CharadesMeddledSplits.extractWithProgress zip_namelist tar_getmembers extract_error.

(** What an extraction does, read off the name and the bytes of the file. *)
Lemma extractWithProgress_run (localFilename extractDir : string) (w : IO.world) :
  let started := "Extracting " +:+ localFilename +:+ "..." in
  let complete := "Extraction complete for " +:+ localFilename +:+ "." in
  extractWithProgress localFilename extractDir w =
    if PyOs.endswith localFilename ".zip" then
      match IO.files w !! localFilename with
      | None => (IO.Failed (IO.FileNotFoundError localFilename),
                 with_output [started] [] w)
      | Some bytes =>
          match zip_namelist bytes with
          | None => (IO.Failed (IO.BadZipFile localFilename),
                     with_output [started] [] w)
          | Some fileList =>
              unpacked localFilename extractDir
                (issued (extract_error bytes)
                   (map (fun file => IO.ZipExtract localFilename file extractDir)
                      fileList)) w
          end
      end
    else if orb (PyOs.endswith localFilename ".tar.gz")
              (orb (PyOs.endswith localFilename ".tgz")
                   (PyOs.endswith localFilename ".tar")) then
      match IO.files w !! localFilename with
      | None => (IO.Failed (IO.FileNotFoundError localFilename),
                 with_output [started] [] w)
      | Some bytes =>
          match tar_getmembers bytes with
          | None => (IO.Failed (IO.ReadError localFilename),
                     with_output [started] [] w)
          | Some members =>
              unpacked localFilename extractDir
                (issued (extract_error bytes)
                   (map (fun member => IO.TarExtract localFilename member extractDir)
                      members)) w
          end
      end
    else
      (IO.Done extractDir,
       with_output
         [started;
          "Unknown file format for " +:+ localFilename +:+ ", skipping extraction.";
          complete] [] w).
Proof.
  intros started complete.
  unfold extractWithProgress, CharadesMeddledSplits.extractWithProgress, unpacked.
  fold started. fold complete.
  unfold IO.bind at 1. rewrite print_run.
  destruct (PyOs.endswith localFilename ".zip");
    [|destruct (orb _ _)].
  - unfold IO.bind at 1. unfold IO.bind at 1. unfold IO.read at 1.
    change (IO.files (with_output [started] [] w)) with (IO.files w).
    destruct (IO.files w !! localFilename) as [bytes|]; [|reflexivity].
    destruct (zip_namelist bytes) as [fileList|]; [|reflexivity].
    unfold IO.bind at 1. rewrite extract_loop_run.
    destruct (issued _ _).2 as [e|].
    + rewrite with_output_app. reflexivity.
    + unfold IO.ret at 1. unfold IO.bind. rewrite print_run. unfold IO.ret.
      rewrite !with_output_app. cbn [app]. now rewrite app_nil_r.
  - unfold IO.bind at 1. unfold IO.bind at 1. unfold IO.read at 1.
    change (IO.files (with_output [started] [] w)) with (IO.files w).
    destruct (IO.files w !! localFilename) as [bytes|]; [|reflexivity].
    destruct (tar_getmembers bytes) as [members|]; [|reflexivity].
    unfold IO.bind at 1. rewrite extract_loop_run.
    destruct (issued _ _).2 as [e|].
    + rewrite with_output_app. reflexivity.
    + unfold IO.ret at 1. unfold IO.bind. rewrite print_run. unfold IO.ret.
      rewrite !with_output_app. cbn [app]. now rewrite app_nil_r.
  - unfold IO.bind at 1. rewrite print_run.
    unfold IO.bind. rewrite print_run. unfold IO.ret.
    now rewrite !with_output_app.
Qed.

End Extract.

(** ** Properties of the download *)

(** X10. A download that returns has returned [localFilename], and has
    left in that file exactly the bytes the response streamed; the
    status was no error status, the stream was not cut, and a
    [content-length] the server announced is zero or the number of bytes
    received. *)
Theorem X10_download_integrity (requests_get : string -> IO.io_result Response)
    (url localFilename result : string) (w w' : IO.world) :
  CharadesMeddledSplits.downloadWithProgress requests_get url localFilename w
    = (IO.Done result, w') ->
  result = localFilename /\
  exists response,
    requests_get url = IO.Done response /\
    w' = with_file localFilename (body response) w /\
    IO.files w' !! localFilename = Some (body response) /\
    andb (400 <=? status_code response) (status_code response <? 600) = false /\
    stream_error response = None /\
    (content_length response = None \/
     exists header total,
       content_length response = Some header /\
       Py.int header = Some total /\
       (total = 0 \/ total = Py.len (body response))).
Proof.
  intros H.
  destruct (requests_get url) as [response|e] eqn:Hget.
  - rewrite (downloadWithProgress_run requests_get url localFilename response w Hget) in H.
    destruct (andb (400 <=? _) _) eqn:Hstatus; [discriminate|].
    destruct (content_length response) as [header|] eqn:Hheader.
    + cbn [cell_int] in H. destruct (Py.int header) as [total|] eqn:Hint; [|discriminate].
      destruct (stream_error response) eqn:Hstream; [discriminate|].
      destruct (andb (negb _) _) eqn:Hsize; [discriminate|].
      injection H as <- <-. split; [reflexivity|]. exists response.
      split; [reflexivity|]. split; [reflexivity|].
      split; [apply lookup_insert_eq|].
      split; [first [reflexivity | assumption]|].
      split; [first [reflexivity | assumption]|].
      right. exists header, total.
      split; [first [reflexivity | assumption]|].
      split; [first [reflexivity | assumption]|].
      apply andb_false_iff in Hsize as [Hz|Hn].
      * left. apply negb_false_iff, Z.eqb_eq in Hz. exact Hz.
      * right. apply negb_false_iff, Z.eqb_eq in Hn. now symmetry.
    + destruct (stream_error response) eqn:Hstream; [discriminate|].
      cbn in H. injection H as <- <-. split; [reflexivity|]. exists response.
      split; [reflexivity|]. split; [reflexivity|].
      split; [apply lookup_insert_eq|].
      split; [first [reflexivity | assumption]|].
      split; [first [reflexivity | assumption]|].
      left. first [reflexivity | assumption].
  - unfold CharadesMeddledSplits.downloadWithProgress in H.
    unfold IO.bind at 1 in H. rewrite Hget in H. discriminate.
Qed.

Lemma X10_download_integrity_witness :
  IO.files (with_file "./downloads/Charades.zip" "PK-annotations" SampleWorld.empty)
    !! "./downloads/Charades.zip" = Some "PK-annotations".
Proof.
  destruct (X10_download_integrity SampleWorld.requests_get _ANNOTATIONS_URL
              "./downloads/Charades.zip" "./downloads/Charades.zip"
              SampleWorld.empty
              (with_file "./downloads/Charades.zip" "PK-annotations" SampleWorld.empty))
    as (_ & response & Hget & _ & Hfile & _); [vm_compute; reflexivity|].
  injection Hget as <-. exact Hfile.
Defined.

(** X11. When the server announces a non-zero [content-length] that
    differs from the number of bytes the stream delivers, the download
    raises [RuntimeError], after every byte received has been written:
    the incomplete file stays on disk. *)
Theorem X11_download_size_mismatch (requests_get : string -> IO.io_result Response)
    (url localFilename header : string) (response : Response) (total : Z)
    (w : IO.world) :
  requests_get url = IO.Done response ->
  andb (400 <=? status_code response) (status_code response <? 600) = false ->
  content_length response = Some header ->
  Py.int header = Some total ->
  stream_error response = None ->
  total <> 0 ->
  Py.len (body response) <> total ->
  CharadesMeddledSplits.downloadWithProgress requests_get url localFilename w
    = (IO.Failed (IO.RuntimeError "Could not download file"),
       with_file localFilename (body response) w).
Proof.
  intros Hget Hstatus Hheader Hint Hstream Hnz Hne.
  rewrite (downloadWithProgress_run requests_get url localFilename response w Hget).
  rewrite Hstatus, Hheader. cbn [cell_int]. rewrite Hint, Hstream.
  apply Z.eqb_neq in Hnz, Hne. now rewrite Hnz, Hne.
Qed.

Lemma X11_download_size_mismatch_witness :
  CharadesMeddledSplits.downloadWithProgress SampleWorld.requests_get
    "https://example.org/short.zip" "./downloads/short.zip" SampleWorld.empty
  = (IO.Failed (IO.RuntimeError "Could not download file"),
     with_file "./downloads/short.zip" "PK-cut" SampleWorld.empty).
Proof.
  apply (X11_download_size_mismatch SampleWorld.requests_get
           "https://example.org/short.zip" "./downloads/short.zip" "20"
           SampleWorld.short_response 20 SampleWorld.empty);
    try reflexivity; discriminate.
Defined.

(** X12. Whatever its outcome, a download touches nothing but the file
    it writes: directories, printed lines, extraction calls and every
    other file stay as they were.  The world is either unchanged
    altogether (the request failed, the status was an error status, or
    the [content-length] was no integer) or the file holds every byte
    the response streamed. *)
Theorem X12_download_frame (requests_get : string -> IO.io_result Response)
    (url localFilename : string) (w : IO.world) :
  let run := CharadesMeddledSplits.downloadWithProgress requests_get url localFilename w in
  IO.dirs run.2 = IO.dirs w /\
  IO.stdout run.2 = IO.stdout w /\
  IO.extracted run.2 = IO.extracted w /\
  (forall path, path <> localFilename -> IO.files run.2 !! path = IO.files w !! path) /\
  (run.2 = w \/
   exists response,
     requests_get url = IO.Done response /\
     run.2 = with_file localFilename (body response) w).
Proof.
  intros run. subst run.
  destruct (requests_get url) as [response|e] eqn:Hget.
  - rewrite (downloadWithProgress_run requests_get url localFilename response w Hget).
    assert (Hfile : forall res : IO.io_result string,
      let run := (res, with_file localFilename (body response) w) in
      IO.dirs run.2 = IO.dirs w /\
      IO.stdout run.2 = IO.stdout w /\
      IO.extracted run.2 = IO.extracted w /\
      (forall path, path <> localFilename -> IO.files run.2 !! path = IO.files w !! path) /\
      (run.2 = w \/
       exists response0,
         IO.Done response = IO.Done response0 /\
         run.2 = with_file localFilename (body response0) w)).
    { intros res. cbn. repeat split.
      - intros path Hne. now apply lookup_insert_ne.
      - right. now exists response. }
    destruct (andb (400 <=? _) _); [cbn; auto 10|].
    destruct (match content_length response with
              | Some header => cell_int (Some header)
              | None => Ok 0
              end); [|cbn; auto 10].
    destruct (stream_error response); [apply Hfile|].
    destruct (andb (negb _) _); apply Hfile.
  - unfold CharadesMeddledSplits.downloadWithProgress.
    unfold IO.bind at 1. rewrite Hget. cbn. auto 10.
Qed.

(** ** Properties of the extraction *)

(** X13. A file whose name ends with none of [.zip], [.tar.gz], [.tgz]
    and [.tar] is not unpacked, whether it exists or not: no extraction call
    is issued, yet the function prints that extraction is complete and
    returns [extractDir] like after a real extraction. *)
Theorem X13_extract_unknown_format (zip_namelist tar_getmembers : string -> option (list string))
    (extract_error : string -> IO.extraction -> option IO.io_exn)
    (localFilename extractDir : string) (w : IO.world) :
  PyOs.endswith localFilename ".zip" = false ->
  PyOs.endswith localFilename ".tar.gz" = false ->
  PyOs.endswith localFilename ".tgz" = false ->
  PyOs.endswith localFilename ".tar" = false ->
  CharadesMeddledSplits.extractWithProgress zip_namelist tar_getmembers extract_error
    localFilename extractDir w
  = (IO.Done extractDir,
     with_output
       [ "Extracting " +:+ localFilename +:+ "...";
         "Unknown file format for " +:+ localFilename +:+ ", skipping extraction.";
         "Extraction complete for " +:+ localFilename +:+ "." ]
       [] w).
Proof.
  intros Hzip Htargz Htgz Htar.
  rewrite extractWithProgress_run. cbv zeta.
  now rewrite Hzip, Htargz, Htgz, Htar.
Qed.

Lemma X13_extract_unknown_format_witness :
  CharadesMeddledSplits.extractWithProgress SampleWorld.zip_namelist
    SampleWorld.tar_getmembers SampleWorld.extract_error "./downloads/Charades.rar" "./extracted"
    SampleWorld.empty
  = (IO.Done "./extracted",
     with_output
       [ "Extracting ./downloads/Charades.rar...";
         "Unknown file format for ./downloads/Charades.rar, skipping extraction.";
         "Extraction complete for ./downloads/Charades.rar." ]
       [] SampleWorld.empty).
Proof.
  apply (X13_extract_unknown_format SampleWorld.zip_namelist SampleWorld.tar_getmembers SampleWorld.extract_error
           "./downloads/Charades.rar" "./extracted" SampleWorld.empty);
    reflexivity.
Defined.

(** X14. A file named [*.zip] that holds a zip archive whose members
    all unpack is unpacked member by member, in the order of the
    archive's name list, every member into [extractDir]; a file named
    [*.tar.gz], [*.tgz] or [*.tar] (and not [*.zip]) that holds a tar
    archive whose members all unpack likewise, through the tar reader.
    The name alone chooses the reader. *)
Theorem X14_extract_members (zip_namelist tar_getmembers : string -> option (list string))
    (extract_error : string -> IO.extraction -> option IO.io_exn)
    (localFilename extractDir bytes : string) (members : list string) (w : IO.world) :
  IO.files w !! localFilename = Some bytes ->
  (PyOs.endswith localFilename ".zip" = true ->
   zip_namelist bytes = Some members ->
   Forall (fun member =>
             extract_error bytes (IO.ZipExtract localFilename member extractDir) = None)
          members ->
   CharadesMeddledSplits.extractWithProgress zip_namelist tar_getmembers extract_error
     localFilename extractDir w
   = (IO.Done extractDir,
      with_output
        [ "Extracting " +:+ localFilename +:+ "...";
          "Extraction complete for " +:+ localFilename +:+ "." ]
        (map (fun member => IO.ZipExtract localFilename member extractDir) members) w))
  /\
  (PyOs.endswith localFilename ".zip" = false ->
   orb (PyOs.endswith localFilename ".tar.gz")
       (orb (PyOs.endswith localFilename ".tgz") (PyOs.endswith localFilename ".tar"))
     = true ->
   tar_getmembers bytes = Some members ->
   Forall (fun member =>
             extract_error bytes (IO.TarExtract localFilename member extractDir) = None)
          members ->
   CharadesMeddledSplits.extractWithProgress zip_namelist tar_getmembers extract_error
     localFilename extractDir w
   = (IO.Done extractDir,
      with_output
        [ "Extracting " +:+ localFilename +:+ "...";
          "Extraction complete for " +:+ localFilename +:+ "." ]
        (map (fun member => IO.TarExtract localFilename member extractDir) members) w)).
Proof.
  intros Hfile. split.
  - intros Hzip Hlist Hall. rewrite extractWithProgress_run. cbv zeta.
    rewrite Hzip, Hfile, Hlist, issued_all; [reflexivity|].
    now apply Forall_fmap.
  - intros Hzip Htar Hlist Hall. rewrite extractWithProgress_run. cbv zeta.
    rewrite Hzip, Htar, Hfile, Hlist, issued_all; [reflexivity|].
    now apply Forall_fmap.
Qed.

Lemma X14_extract_members_witness :
  CharadesMeddledSplits.extractWithProgress SampleWorld.zip_namelist
    SampleWorld.tar_getmembers SampleWorld.extract_error
    "./downloads/Charades.zip" "./extracted"
    (with_file "./downloads/Charades.zip" "PK-annotations" SampleWorld.empty)
  = (IO.Done "./extracted",
     with_output
       [ "Extracting ./downloads/Charades.zip...";
         "Extraction complete for ./downloads/Charades.zip." ]
       [ IO.ZipExtract "./downloads/Charades.zip" "Charades/Charades_v1_train.csv"
           "./extracted";
         IO.ZipExtract "./downloads/Charades.zip" "Charades/Charades_v1_test.csv"
           "./extracted" ]
       (with_file "./downloads/Charades.zip" "PK-annotations" SampleWorld.empty)).
Proof.
  destruct (X14_extract_members SampleWorld.zip_namelist SampleWorld.tar_getmembers
              SampleWorld.extract_error
              "./downloads/Charades.zip" "./extracted" "PK-annotations"
              ["Charades/Charades_v1_train.csv"; "Charades/Charades_v1_test.csv"]
              (with_file "./downloads/Charades.zip" "PK-annotations" SampleWorld.empty))
    as [Hzip _]; [reflexivity|].
  apply Hzip; [reflexivity | reflexivity |].
  repeat constructor.
Defined.

(** X15. Whatever the file, an extraction that returns has returned
    [extractDir] and has printed the opening line first and the
    completion line last.  An extraction that raises has printed the
    opening line only.  It raises either before any extraction call,
    because the file is missing or is not an archive of the kind its
    name announces, or at a member that fails to unpack: the calls
    issued are then those of the members before it, which returned, and
    the call that raised. *)
Theorem X15_extract_outcomes (zip_namelist tar_getmembers : string -> option (list string))
    (extract_error : string -> IO.extraction -> option IO.io_exn)
    (localFilename extractDir : string) (w : IO.world) :
  match CharadesMeddledSplits.extractWithProgress zip_namelist tar_getmembers
          extract_error localFilename extractDir w with
  | (IO.Done result, w') =>
      result = extractDir /\
      exists lines calls,
        w' = with_output
               (("Extracting " +:+ localFilename +:+ "...") :: lines
                  ++ ["Extraction complete for " +:+ localFilename +:+ "."])
               calls w
  | (IO.Failed e, w') =>
      exists calls,
        w' = with_output ["Extracting " +:+ localFilename +:+ "..."] calls w /\
        ((calls = [] /\
          (e = IO.FileNotFoundError localFilename \/
           e = IO.BadZipFile localFilename \/
           e = IO.ReadError localFilename))
         \/
         exists bytes done failed,
           IO.files w !! localFilename = Some bytes /\
           calls = done ++ [failed] /\
           extract_error bytes failed = Some e /\
           Forall (fun call => extract_error bytes call = None) done)
  end.
Proof.
  rewrite extractWithProgress_run. cbv zeta. unfold unpacked.
  destruct (PyOs.endswith localFilename ".zip"); [|destruct (orb _ _)].
  - destruct (IO.files w !! localFilename) as [bytes|]; [|exists []; split; [reflexivity|]; left; split; [reflexivity | auto]].
    destruct (zip_namelist bytes) as [fileList|]; [|exists []; split; [reflexivity|]; left; split; [reflexivity | auto]].
    pose proof (issued_prefix (extract_error bytes)
                  (map (fun file => IO.ZipExtract localFilename file extractDir)
                     fileList)) as [_ Hissued].
    destruct (issued _ _).2 as [e|].
    + destruct Hissued as (done & failed & Hcalls & Hfailed & Hdone).
      eexists. split; [reflexivity|]. right. now exists bytes, done, failed.
    + split; [reflexivity|]. exists []. eexists. reflexivity.
  - destruct (IO.files w !! localFilename) as [bytes|]; [|exists []; split; [reflexivity|]; left; split; [reflexivity | auto]].
    destruct (tar_getmembers bytes) as [members|]; [|exists []; split; [reflexivity|]; left; split; [reflexivity | auto]].
    pose proof (issued_prefix (extract_error bytes)
                  (map (fun member => IO.TarExtract localFilename member extractDir)
                     members)) as [_ Hissued].
    destruct (issued _ _).2 as [e|].
    + destruct Hissued as (done & failed & Hcalls & Hfailed & Hdone).
      eexists. split; [reflexivity|]. right. now exists bytes, done, failed.
    + split; [reflexivity|]. exists []. eexists. reflexivity.
  - split; [reflexivity|]. eexists [_], []. reflexivity.
Qed.

(** ** [_split_generators] *)

Section Splits.

Variable requests_get : string -> IO.io_result Response.
Variable zip_namelist : string -> option (list string).
Variable tar_getmembers : string -> option (list string).
Variable extract_error : string -> IO.extraction -> option IO.io_exn.

Let download_and_extract :=
  CharadesMeddledSplits.download_and_extract requests_get zip_namelist tar_getmembers extract_error.

Lemma download_complete (url path : string) (response : Response) (w : IO.world) :
  requests_get url = IO.Done response -> complete response ->
  CharadesMeddledSplits.downloadWithProgress requests_get url path w
    = (IO.Done path, with_file path (body response) w).
Proof.
  intros Hget (Hstatus & Hstream & Hsize).
  rewrite (downloadWithProgress_run requests_get url path response w Hget).
  rewrite Hstatus, Hstream.
  destruct Hsize as [Hnone | (header & total & Hheader & Hint & Htotal)].
  - now rewrite Hnone.
  - rewrite Hheader. cbn [cell_int]. rewrite Hint.
    destruct Htotal as [-> | ->]; [reflexivity|].
    now rewrite Z.eqb_refl, andb_false_r.
Qed.

Lemma extractWithProgress_Done (localFilename extractDir result : string)
    (w w' : IO.world) :
  CharadesMeddledSplits.extractWithProgress zip_namelist tar_getmembers extract_error
    localFilename extractDir w = (IO.Done result, w') ->
  result = extractDir.
Proof.
  rewrite extractWithProgress_run. cbv zeta. unfold unpacked.
  destruct (PyOs.endswith localFilename ".zip"); [|destruct (orb _ _)].
  - destruct (IO.files w !! localFilename) as [bytes|]; [|discriminate].
    destruct (zip_namelist bytes); [|discriminate].
    destruct (issued _ _).2; [discriminate | now intros [= <- _]].
  - destruct (IO.files w !! localFilename) as [bytes|]; [|discriminate].
    destruct (tar_getmembers bytes); [|discriminate].
    destruct (issued _ _).2; [discriminate | now intros [= <- _]].
  - now intros [= <- _].
Qed.

(** The local [download_and_extract] returns the extraction directory,
    whatever it downloaded. *)
Lemma download_and_extract_Done (url downloadDir extractDir result : string)
    (w w' : IO.world) :
  download_and_extract url downloadDir extractDir w = (IO.Done result, w') ->
  result = extractDir.
Proof.
  unfold download_and_extract, CharadesMeddledSplits.download_and_extract.
  intros H. apply io_bind_inv in H as (file & w1 & _ & H).
  apply io_bind_inv in H as (path & w2 & Hextract & H).
  apply extractWithProgress_Done in Hextract as ->.
  now injection H as <- _.
Qed.

(** A complete response holding a zip archive whose members unpack:
    the file is written, then every member is unpacked. *)
Lemma download_and_extract_zip (url downloadDir extractDir : string)
    (response : Response) (members : list string) (w : IO.world) :
  requests_get url = IO.Done response -> complete response ->
  PyOs.endswith (Py.os_path_join downloadDir (PyOs.basename url)) ".zip" = true ->
  zip_namelist (body response) = Some members ->
  Forall (fun call => extract_error (body response) call = None)
         (map (fun member =>
                 IO.ZipExtract (Py.os_path_join downloadDir (PyOs.basename url))
                   member extractDir) members) ->
  let localFilename := Py.os_path_join downloadDir (PyOs.basename url) in
  download_and_extract url downloadDir extractDir w =
    (IO.Done extractDir,
     with_output
       [ "Extracting " +:+ localFilename +:+ "...";
         "Extraction complete for " +:+ localFilename +:+ "." ]
       (map (fun member => IO.ZipExtract localFilename member extractDir) members)
       (with_file localFilename (body response) w)).
Proof.
  intros Hget Hcomplete Hzip Hlist Hall localFilename.
  unfold download_and_extract, CharadesMeddledSplits.download_and_extract.
  fold localFilename. unfold IO.bind at 1.
  rewrite (download_complete url localFilename response w Hget Hcomplete).
  unfold IO.bind at 1. rewrite extractWithProgress_run. cbv zeta.
  fold localFilename in Hzip, Hall. rewrite Hzip.
  unfold with_file at 1. cbn [IO.files]. rewrite lookup_insert_eq, Hlist.
  rewrite (issued_all _ _ Hall). reflexivity.
Qed.

End Splits.

(** The URLs of the table, by configuration name. *)
Lemma videos_url_cases (config_name url : string) :
  table_getitem _VIDEOS_URL config_name = Ok url ->
  (config_name = "default" /\
   url = "https://ai2-public-datasets.s3-us-west-2.amazonaws.com/charades/Charades_v1.zip")
  \/
  (config_name = "480p" /\
   url = "https://ai2-public-datasets.s3-us-west-2.amazonaws.com/charades/Charades_v1_480.zip").
Proof.
  unfold _VIDEOS_URL. cbn [table_getitem].
  destruct (String.eqb "default" config_name) eqn:Hd.
  - apply String.eqb_eq in Hd as <-. intros [= <-]. now left.
  - destruct (String.eqb "480p" config_name) eqn:Hp; [|discriminate].
    apply String.eqb_eq in Hp as <-. intros [= <-]. now right.
Qed.

Lemma meddled_split_generators_Done
    (requests_get : string -> IO.io_result Response)
    (zip_namelist tar_getmembers : string -> option (list string))
    (extract_error : string -> IO.extraction -> option IO.io_exn)
    (config_name : string) (splits : list SplitGenerator) (w w' : IO.world) :
  CharadesMeddledSplits._split_generators requests_get zip_namelist tar_getmembers extract_error
    config_name w = (IO.Done splits, w') ->
  splits = meddled_splits.
Proof.
  unfold CharadesMeddledSplits._split_generators. intros H.
  apply io_bind_inv in H as (u1 & w1 & _ & H).
  apply io_bind_inv in H as (u2 & w2 & _ & H).
  apply io_bind_inv in H as (annotations_path & w3 & Hann & H).
  apply io_bind_inv in H as (url & w4 & _ & H).
  apply io_bind_inv in H as (videos_path & w5 & Hvid & H).
  apply download_and_extract_Done in Hann as ->.
  apply download_and_extract_Done in Hvid as ->.
  now injection H as <- _.
Qed.

Lemma videos_url_unknown (config_name : string) :
  config_name <> "default" -> config_name <> "480p" ->
  table_getitem _VIDEOS_URL config_name = Raise (KeyError config_name).
Proof.
  intros Hd Hp. unfold _VIDEOS_URL. cbn [table_getitem].
  destruct (String.eqb "default" config_name) eqn:Ed;
    [apply String.eqb_eq in Ed; congruence|].
  destruct (String.eqb "480p" config_name) eqn:Ep;
    [apply String.eqb_eq in Ep; congruence | reflexivity].
Qed.

(** X16. When [_split_generators] of [charades.py] returns, it returns
    the TRAIN split and then the TEST split; the download manager was
    asked for the annotations first and for the videos of the
    configuration second; the two splits read
    [Charades/Charades_v1_train.csv] and [Charades/Charades_v1_test.csv]
    under the annotations path it returned, and share one video folder,
    [Charades_v1] under the videos path it returned. *)
Theorem X16_splits_of_download_manager (download_and_extract : string -> IO.io string)
    (config_name : string) (splits : list SplitGenerator) (w w' : IO.world) :
  CharadesSplits._split_generators download_and_extract config_name w
    = (IO.Done splits, w') ->
  exists annotations_path videos_path url w1,
    download_and_extract _ANNOTATIONS_URL w = (IO.Done annotations_path, w1) /\
    table_getitem _VIDEOS_URL config_name = Ok url /\
    download_and_extract url w1 = (IO.Done videos_path, w') /\
    splits =
      [ mkSplitGenerator TRAIN
          (Py.os_path_join (Py.os_path_join annotations_path "Charades")
             "Charades_v1_train.csv")
          (Py.os_path_join videos_path "Charades_v1");
        mkSplitGenerator TEST
          (Py.os_path_join (Py.os_path_join annotations_path "Charades")
             "Charades_v1_test.csv")
          (Py.os_path_join videos_path "Charades_v1") ].
Proof.
  unfold CharadesSplits._split_generators. intros H.
  apply io_bind_inv in H as (annotations_path & w1 & Hann & H).
  apply io_bind_inv in H as (url & w2 & Hurl & H).
  apply io_bind_inv in H as (videos_path & w3 & Hvid & H).
  destruct (table_getitem _VIDEOS_URL config_name) as [url'|e] eqn:Htable;
    [|discriminate].
  cbn in Hurl. injection Hurl as Hu Hw. subst url' w2.
  cbn in H. injection H as Hs Hw. subst splits w3.
  now exists annotations_path, videos_path, url, w1.
Qed.

Lemma X16_splits_of_download_manager_witness :
  exists annotations_path videos_path url w1,
    (fun url w => (IO.Done ("/cache/" +:+ PyOs.basename url), w))
      _ANNOTATIONS_URL SampleWorld.empty = (IO.Done annotations_path, w1) /\
    table_getitem _VIDEOS_URL "480p" = Ok url /\
    (fun url w => (IO.Done ("/cache/" +:+ PyOs.basename url), w)) url w1
      = (IO.Done videos_path, SampleWorld.empty) /\
    [ mkSplitGenerator TRAIN "/cache/Charades.zip/Charades/Charades_v1_train.csv"
        "/cache/Charades_v1_480.zip/Charades_v1";
      mkSplitGenerator TEST "/cache/Charades.zip/Charades/Charades_v1_test.csv"
        "/cache/Charades_v1_480.zip/Charades_v1" ] =
      [ mkSplitGenerator TRAIN
          (Py.os_path_join (Py.os_path_join annotations_path "Charades")
             "Charades_v1_train.csv")
          (Py.os_path_join videos_path "Charades_v1");
        mkSplitGenerator TEST
          (Py.os_path_join (Py.os_path_join annotations_path "Charades")
             "Charades_v1_test.csv")
          (Py.os_path_join videos_path "Charades_v1") ].
Proof.
  apply (X16_splits_of_download_manager
           (fun url w => (IO.Done ("/cache/" +:+ PyOs.basename url), w))
           "480p" _ SampleWorld.empty SampleWorld.empty).
  vm_compute. reflexivity.
Defined.

(** X17. When [_split_generators] of [charadesMeddled.py] returns, it
    returns the same two splits whatever was downloaded and whichever
    configuration was chosen: the annotation files
    [./extracted/Charades/Charades_v1_train.csv] and
    [./extracted/Charades/Charades_v1_test.csv] and the video folder
    [./extracted/Charades_v1]. *)
Theorem X17_meddled_splits_fixed (requests_get : string -> IO.io_result Response)
    (zip_namelist tar_getmembers : string -> option (list string))
    (extract_error : string -> IO.extraction -> option IO.io_exn)
    (config_name : string) (splits : list SplitGenerator) (w w' : IO.world) :
  CharadesMeddledSplits._split_generators requests_get zip_namelist tar_getmembers extract_error
    config_name w = (IO.Done splits, w') ->
  splits = meddled_splits /\
  map video_folder splits = ["./extracted/Charades_v1"; "./extracted/Charades_v1"] /\
  map name splits = [TRAIN; TEST].
Proof.
  intros H. apply meddled_split_generators_Done in H as ->. now repeat split.
Qed.

Lemma X17_meddled_splits_fixed_witness :
  (CharadesMeddledSplits._split_generators SampleWorld.requests_get
     SampleWorld.zip_namelist SampleWorld.tar_getmembers SampleWorld.extract_error "default" SampleWorld.empty).1
  = IO.Done meddled_splits.
Proof.
  destruct (CharadesMeddledSplits._split_generators SampleWorld.requests_get
              SampleWorld.zip_namelist SampleWorld.tar_getmembers SampleWorld.extract_error "default"
              SampleWorld.empty) as [[splits|e] w'] eqn:Hrun.
  - destruct (X17_meddled_splits_fixed _ _ _ _ _ _ _ _ Hrun) as [-> _]. reflexivity.
  - vm_compute in Hrun. discriminate.
Defined.

(** X18. The run of [_split_generators] of [charadesMeddled.py] when both
    downloads are complete and both files hold zip archives whose
    members all unpack: the two
    directories exist, each archive is stored under [./downloads] with
    the last segment of its URL as name and holds exactly the bytes its
    response streamed, the members of the annotations archive and then
    those of the videos archive are unpacked into [./extracted] by the
    zip reader, in order, and the fixed splits are returned. *)
Theorem X18_meddled_run (requests_get : string -> IO.io_result Response)
    (zip_namelist tar_getmembers : string -> option (list string))
    (extract_error : string -> IO.extraction -> option IO.io_exn)
    (config_name url : string) (annotations videos : Response)
    (annotation_members video_members : list string) (w : IO.world) :
  requests_get _ANNOTATIONS_URL = IO.Done annotations -> complete annotations ->
  zip_namelist (body annotations) = Some annotation_members ->
  Forall (fun member =>
            extract_error (body annotations)
              (IO.ZipExtract "./downloads/Charades.zip" member "./extracted") = None)
         annotation_members ->
  table_getitem _VIDEOS_URL config_name = Ok url ->
  requests_get url = IO.Done videos -> complete videos ->
  zip_namelist (body videos) = Some video_members ->
  Forall (fun member =>
            extract_error (body videos)
              (IO.ZipExtract ("./downloads/" +:+ PyOs.basename url) member "./extracted")
            = None)
         video_members ->
  let run := CharadesMeddledSplits._split_generators requests_get zip_namelist
               tar_getmembers extract_error config_name w in
  let annotations_zip := "./downloads/Charades.zip" in
  let videos_zip := "./downloads/" +:+ PyOs.basename url in
  run.1 = IO.Done meddled_splits /\
  IO.files run.2
    = <[videos_zip := body videos]> (<[annotations_zip := body annotations]> (IO.files w)) /\
  IO.dirs run.2 = {["./extracted"]} ∪ ({["./downloads"]} ∪ IO.dirs w) /\
  IO.extracted run.2
    = IO.extracted w
      ++ map (fun member => IO.ZipExtract annotations_zip member "./extracted")
           annotation_members
      ++ map (fun member => IO.ZipExtract videos_zip member "./extracted")
           video_members /\
  IO.stdout run.2
    = IO.stdout w
      ++ [ "Extracting " +:+ annotations_zip +:+ "...";
           "Extraction complete for " +:+ annotations_zip +:+ ".";
           "Extracting " +:+ videos_zip +:+ "...";
           "Extraction complete for " +:+ videos_zip +:+ "." ].
Proof.
  intros Hann Hannc Hannz Hannx Hurl Hvid Hvidc Hvidz Hvidx run annotations_zip videos_zip.
  assert (Hzip : PyOs.endswith (Py.os_path_join "./downloads" (PyOs.basename url)) ".zip"
                 = true /\
                 Py.os_path_join "./downloads" (PyOs.basename url) = videos_zip).
  { subst videos_zip.
    destruct (videos_url_cases _ _ Hurl) as [[_ ->] | [_ ->]]; split; reflexivity. }
  destruct Hzip as [Hzip Hname].
  assert (Hvidx' :
    Forall (fun call => extract_error (body videos) call = None)
      (map (fun member =>
              IO.ZipExtract (Py.os_path_join "./downloads" (PyOs.basename url))
                member "./extracted") video_members)).
  { rewrite Hname. now apply Forall_fmap. }
  assert (Hrun :
    run = (IO.Done meddled_splits,
           with_output
             [ "Extracting " +:+ videos_zip +:+ "...";
               "Extraction complete for " +:+ videos_zip +:+ "." ]
             (map (fun member => IO.ZipExtract videos_zip member "./extracted")
                video_members)
             (with_file videos_zip (body videos)
                (with_output
                   [ "Extracting " +:+ annotations_zip +:+ "...";
                     "Extraction complete for " +:+ annotations_zip +:+ "." ]
                   (map (fun member =>
                           IO.ZipExtract annotations_zip member "./extracted")
                      annotation_members)
                   (with_file annotations_zip (body annotations)
                      (IO.mkWorld (IO.files w)
                         ({["./extracted"]} ∪ ({["./downloads"]} ∪ IO.dirs w))
                         (IO.stdout w) (IO.extracted w))))))).
  { subst run. unfold CharadesMeddledSplits._split_generators.
    unfold IO.bind at 1. cbn [IO.makedirs].
    unfold IO.bind at 1. cbn [IO.makedirs IO.files IO.dirs IO.stdout IO.extracted].
    rewrite (io_bind_Done _ _ _ _ _
               (download_and_extract_zip requests_get zip_namelist tar_getmembers extract_error
                  _ANNOTATIONS_URL "./downloads" "./extracted" annotations
                  annotation_members _ Hann Hannc eq_refl Hannz
                  (proj2 (Forall_fmap _ _ _) Hannx))).
    change (Py.os_path_join "./downloads" (PyOs.basename _ANNOTATIONS_URL))
      with annotations_zip.
    rewrite Hurl. cbn [IO.lift]. unfold IO.bind at 1. unfold IO.ret at 1.
    rewrite (io_bind_Done _ _ _ _ _
               (download_and_extract_zip requests_get zip_namelist tar_getmembers extract_error
                  url "./downloads" "./extracted" videos video_members
                  _ Hvid Hvidc Hzip Hvidz Hvidx')).
    rewrite Hname. reflexivity. }
  rewrite Hrun. unfold with_output, with_file.
  cbn [fst snd IO.files IO.dirs IO.stdout IO.extracted].
  repeat split; rewrite <- ?app_assoc; reflexivity.
Qed.

Lemma X18_meddled_run_witness :
  IO.files
    (CharadesMeddledSplits._split_generators SampleWorld.requests_get
       SampleWorld.zip_namelist SampleWorld.tar_getmembers SampleWorld.extract_error "default" SampleWorld.empty).2
  = <["./downloads/Charades_v1.zip" := "PK-videos"]>
      (<["./downloads/Charades.zip" := "PK-annotations"]> ∅)
  /\
  IO.extracted
    (CharadesMeddledSplits._split_generators SampleWorld.requests_get
       SampleWorld.zip_namelist SampleWorld.tar_getmembers SampleWorld.extract_error "default" SampleWorld.empty).2
  = [ IO.ZipExtract "./downloads/Charades.zip" "Charades/Charades_v1_train.csv"
        "./extracted";
      IO.ZipExtract "./downloads/Charades.zip" "Charades/Charades_v1_test.csv"
        "./extracted";
      IO.ZipExtract "./downloads/Charades_v1.zip" "Charades_v1/AO8RW.mp4"
        "./extracted" ].
Proof.
  assert (Hann : complete SampleWorld.annotations_response).
  { split; [reflexivity | split; [reflexivity|]].
    right. exists "14", 14. split; [reflexivity | split; [reflexivity | now right]]. }
  assert (Hvid : complete SampleWorld.videos_response).
  { split; [reflexivity | split; [reflexivity | now left]]. }
  assert (Hannx :
    Forall (fun member =>
              SampleWorld.extract_error (body SampleWorld.annotations_response)
                (IO.ZipExtract "./downloads/Charades.zip" member "./extracted") = None)
           ["Charades/Charades_v1_train.csv"; "Charades/Charades_v1_test.csv"])
    by (repeat constructor).
  assert (Hvidx :
    Forall (fun member =>
              SampleWorld.extract_error (body SampleWorld.videos_response)
                (IO.ZipExtract
                   ("./downloads/" +:+ PyOs.basename
                      "https://ai2-public-datasets.s3-us-west-2.amazonaws.com/charades/Charades_v1.zip")
                   member "./extracted") = None)
           ["Charades_v1/AO8RW.mp4"])
    by (repeat constructor).
  destruct (X18_meddled_run SampleWorld.requests_get SampleWorld.zip_namelist
              SampleWorld.tar_getmembers SampleWorld.extract_error "default"
              "https://ai2-public-datasets.s3-us-west-2.amazonaws.com/charades/Charades_v1.zip"
              SampleWorld.annotations_response SampleWorld.videos_response
              ["Charades/Charades_v1_train.csv"; "Charades/Charades_v1_test.csv"]
              ["Charades_v1/AO8RW.mp4"] SampleWorld.empty
              eq_refl Hann eq_refl Hannx eq_refl eq_refl Hvid eq_refl Hvidx)
    as (_ & Hfiles & _ & Hextracted & _).
  split; [exact Hfiles | exact Hextracted].
Defined.

(** X19. With a configuration name that is neither [default] nor
    [480p], neither builder returns splits.  Both fetch the annotations
    first; if that succeeds the [KeyError] of the configuration name is
    raised, and the world is left as the annotations download left it:
    no video archive is requested. *)
Theorem X19_unknown_configuration (download_and_extract : string -> IO.io string)
    (requests_get : string -> IO.io_result Response)
    (zip_namelist tar_getmembers : string -> option (list string))
    (extract_error : string -> IO.extraction -> option IO.io_exn)
    (config_name : string) (w : IO.world) :
  config_name <> "default" -> config_name <> "480p" ->
  (forall path w1,
     download_and_extract _ANNOTATIONS_URL w = (IO.Done path, w1) ->
     CharadesSplits._split_generators download_and_extract config_name w
       = (IO.Failed (IO.Builtin (KeyError config_name)), w1))
  /\
  (forall e w1,
     download_and_extract _ANNOTATIONS_URL w = (IO.Failed e, w1) ->
     CharadesSplits._split_generators download_and_extract config_name w
       = (IO.Failed e, w1))
  /\
  (forall path w1,
     CharadesMeddledSplits.download_and_extract requests_get zip_namelist tar_getmembers extract_error
       _ANNOTATIONS_URL "./downloads" "./extracted"
       (IO.mkWorld (IO.files w) ({["./extracted"]} ∪ ({["./downloads"]} ∪ IO.dirs w))
          (IO.stdout w) (IO.extracted w))
       = (IO.Done path, w1) ->
     CharadesMeddledSplits._split_generators requests_get zip_namelist tar_getmembers extract_error
       config_name w
       = (IO.Failed (IO.Builtin (KeyError config_name)), w1))
  /\
  (forall splits w',
     CharadesMeddledSplits._split_generators requests_get zip_namelist tar_getmembers extract_error
       config_name w <> (IO.Done splits, w')).
Proof.
  intros Hd Hp. pose proof (videos_url_unknown config_name Hd Hp) as Hurl.
  split; [|split; [|split]].
  - intros path w1 Hann. unfold CharadesSplits._split_generators.
    rewrite (io_bind_Done _ _ _ _ _ Hann).
    unfold IO.bind. now rewrite Hurl.
  - intros e w1 Hann. unfold CharadesSplits._split_generators.
    now rewrite (io_bind_Failed _ _ _ _ _ Hann).
  - intros path w1 Hann. unfold CharadesMeddledSplits._split_generators.
    unfold IO.bind at 1. cbn [IO.makedirs].
    unfold IO.bind at 1. cbn [IO.makedirs].
    cbn [IO.files IO.dirs IO.stdout IO.extracted].
    rewrite (io_bind_Done _ _ _ _ _ Hann).
    unfold IO.bind. now rewrite Hurl.
  - intros splits w' H. unfold CharadesMeddledSplits._split_generators in H.
    apply io_bind_inv in H as (u1 & w1 & _ & H).
    apply io_bind_inv in H as (u2 & w2 & _ & H).
    apply io_bind_inv in H as (annotations_path & w3 & _ & H).
    apply io_bind_inv in H as (url & w4 & Hlift & _).
    rewrite Hurl in Hlift. discriminate.
Qed.

Lemma X19_unknown_configuration_witness :
  CharadesSplits._split_generators
    (fun url w => (IO.Done ("/cache/" +:+ PyOs.basename url), w))
    "720p" SampleWorld.empty
  = (IO.Failed (IO.Builtin (KeyError "720p")), SampleWorld.empty).
Proof.
  destruct (X19_unknown_configuration
              (fun url w => (IO.Done ("/cache/" +:+ PyOs.basename url), w))
              SampleWorld.requests_get SampleWorld.zip_namelist
              SampleWorld.tar_getmembers SampleWorld.extract_error "720p" SampleWorld.empty)
    as (Hkey & _); [discriminate | discriminate |].
  apply (Hkey "/cache/Charades.zip"). reflexivity.
Defined.

(** X20. The video folder that [_split_generators] of
    [charadesMeddled.py] hands to [_generate_examples] makes every
    example of a row whose id does not start with a separator point at
    [./extracted/Charades_v1/<id>.mp4], for both splits and both
    configurations. *)
Theorem X20_meddled_video_paths {F : Type} (float : string -> option F)
    (CHARADES_CLASSES : list (string * string))
    (requests_get : string -> IO.io_result Response)
    (zip_namelist tar_getmembers : string -> option (list string))
    (extract_error : string -> IO.extraction -> option IO.io_exn)
    (config_name : string) (splits : list SplitGenerator) (w w' : IO.world)
    (split : SplitGenerator) (row : row) (id : string) (ex : Example.t F) :
  CharadesMeddledSplits._split_generators requests_get zip_namelist tar_getmembers extract_error
    config_name w = (IO.Done splits, w') ->
  split ∈ splits ->
  row !! "id" = Some (Some id) ->
  Py.startswith "/" id = false ->
  CharadesMeddled.example_of_row float CHARADES_CLASSES (video_folder split) row = Ok ex ->
  Example.video ex = "./extracted/Charades_v1/" +:+ id +:+ ".mp4".
Proof.
  intros Hrun Hin Hid Hstart Hex.
  apply meddled_split_generators_Done in Hrun as ->.
  assert (Hfolder : video_folder split = "./extracted/Charades_v1").
  { unfold meddled_splits in Hin.
    apply elem_of_cons in Hin as [->|Hin]; [reflexivity|].
    apply elem_of_cons in Hin as [->|Hin]; [reflexivity|].
    now apply elem_of_nil in Hin. }
  rewrite Hfolder, meddled_example_of_row in Hex.
  apply example_of_row_Ok in Hex
    as (id' & actions & lists & q & r & o & d & Hid' & _ & _ & _ & _ & _ & _
        & _ & _ & _ & _ & _ & Hex).
  assert (id' = id) as -> by congruence.
  rewrite Hex. cbn [Example.video].
  rewrite os_path_join_suffix, os_path_join_plain; [reflexivity | discriminate | reflexivity | exact Hstart].
Qed.

Lemma X20_meddled_video_paths_witness :
  CharadesMeddled.example_of_row Sample.float Sample.classes
    "./extracted/Charades_v1" Sample.row_AO8RW = Ok SampleWorld.example_AO8RW /\
  Example.video SampleWorld.example_AO8RW
    = "./extracted/Charades_v1/" +:+ "AO8RW" +:+ ".mp4".
Proof.
  split; [vm_compute; reflexivity|].
  destruct (CharadesMeddledSplits._split_generators SampleWorld.requests_get
              SampleWorld.zip_namelist SampleWorld.tar_getmembers SampleWorld.extract_error "default"
              SampleWorld.empty) as [[splits|e] w'] eqn:Hrun;
    [|vm_compute in Hrun; discriminate].
  pose proof (meddled_split_generators_Done _ _ _ _ _ _ _ _ Hrun) as Hsplits.
  apply (X20_meddled_video_paths Sample.float Sample.classes
           SampleWorld.requests_get SampleWorld.zip_namelist SampleWorld.tar_getmembers SampleWorld.extract_error
           "default" splits SampleWorld.empty w'
           (mkSplitGenerator TRAIN "./extracted/Charades/Charades_v1_train.csv"
              "./extracted/Charades_v1")
           Sample.row_AO8RW "AO8RW" SampleWorld.example_AO8RW Hrun).
  - rewrite Hsplits. apply list_elem_of_here.
  - reflexivity.
  - reflexivity.
  - vm_compute. reflexivity.
Defined.
